(** * The ISY994 configuration flow

    A shallow embedding of [homeassistant/components/isy994/config_flow.py]:
    the validation of the connection parameters, the three entry steps of
    the setup wizard ([user], [import], [ssdp]) and the options editor,
    followed by the properties of the flow that the specification states.

    Python values are modelled by [pyval], dictionaries with string keys by
    [gmap string pyval], exceptions by [exn], and the code that touches the
    flow, the stored entries or the executor by the state-and-exception
    monad [Flow]. Strings are sequences of bytes; the two affixes the code
    strips are ASCII, so stripping them bytewise is stripping them
    characterwise. *)

From Stdlib Require Import ZArith String Ascii List Bool Lia.
From Stdlib Require Import Floats.SpecFloat DecimalString.
From stdpp Require Import base gmap strings list.

Local Open Scope string_scope.
Local Open Scope Z_scope.

(** ** Python values *)

(** The values that occur in the dictionaries of this module. *)
Inductive pyval :=
  | VNone
  | VBool (b : bool)
  | VInt (z : Z)
  | VFloat (x : spec_float)
  | VStr (s : string).

(** [bool(v)]: the truth value Python gives to [v]. *)
Definition truthy (v : pyval) : bool :=
  match v with
  | VNone => false
  | VBool b => b
  | VInt z => negb (z =? 0)
  | VFloat (S754_zero _) => false
  | VFloat _ => true
  | VStr s => negb (String.eqb s "")
  end.

(** The floats [1.1] and [1.2] (binary64, round to nearest). *)
Definition float_1_1 : spec_float := S754_finite false 4953959590107546 (-52).
Definition float_1_2 : spec_float := S754_finite false 5404319552844595 (-52).

(** ** Python strings *)

Module PyStr.

(** [s.startswith(prefix)] *)
Fixpoint startswith (s prefix : string) {struct prefix} : bool :=
  match prefix, s with
  | EmptyString, _ => true
  | String a prefix', String b s' => Ascii.eqb a b && startswith s' prefix'
  | String _ _, EmptyString => false
  end.

(** [s[n:]] for [0 <= n] *)
Fixpoint slice_from (s : string) (n : nat) {struct n} : string :=
  match n, s with
  | O, _ => s
  | S n', String _ s' => slice_from s' n'
  | S _, EmptyString => EmptyString
  end.

(** [s[:n]] for [0 <= n] *)
Fixpoint slice_to (s : string) (n : nat) {struct n} : string :=
  match n, s with
  | O, _ => EmptyString
  | S n', String a s' => String a (slice_to s' n')
  | S _, EmptyString => EmptyString
  end.

(** [s[:-n]] for [0 <= n]. The index [-0] is [0], so [s[:-0]] is empty;
    an index before the start of the string is clamped to the start. *)
Definition slice_to_neg (s : string) (n : nat) : string :=
  match n with
  | O => EmptyString
  | S _ => slice_to s (String.length s - n)%nat
  end.

(** [s.endswith(suffix)] *)
Definition endswith (s suffix : string) : bool :=
  (String.length suffix <=? String.length s)%nat
  && String.eqb (slice_from s (String.length s - String.length suffix)%nat) suffix.

End PyStr.

(** ** Exceptions *)

(** The three exception classes of the module, the abort signal of the
    flow framework, and the built-in exceptions the code can meet. All of
    them derive from [Exception]. *)
Inductive exn :=
  | InvalidHost
  | CannotConnect
  | InvalidAuth (arg : pyval)
  | AbortFlow
  | ValueError (args : list pyval)
  | KeyError (key : string)
  | IndexError
  | TypeError
  | AttributeError
  | OtherError (name : string).

(** ** Data of the flow *)

Abbreviation pydict := (gmap string pyval).

(** [d.get(key, default)] *)
Definition dict_get (d : pydict) (key : string) (default : pyval) : pyval :=
  match d !! key with
  | Some v => v
  | None => default
  end.

(** [not d] for a dictionary: it is empty. *)
Definition dict_falsy (d : pydict) : bool := bool_decide (d = ∅).

(** What [urlparse] returns, as far as the flow reads it. Reading [port]
    raises when the port of the URL is not a number in range. *)
Record parse_result := {
  scheme : string;
  hostname : option string;
  port : exn + option Z;
  path : string
}.

(** The seven arguments [validate_input] hands to
    [_fetch_isy_configuration], and that function to [Connection]. *)
Record conn_args := {
  address : option string;
  conn_port : Z;
  username : pyval;
  password : pyval;
  use_https : bool;
  tls_ver : pyval;
  webroot : string
}.

(** The dictionary [validate_input] returns. *)
Record device_info := {
  info_title : string;
  info_uuid : pyval
}.

(** A [voluptuous] schema: the keys in the order they are written, each
    with its marker, its default (if any) and its validator. *)
Inductive vol_marker := Required | Optional.
Inductive vol_validator := vol_str | vol_bool | vol_In (container : list pyval).
Inductive vol_extra := PREVENT_EXTRA | ALLOW_EXTRA.

Record vol_key := {
  vk_marker : vol_marker;
  vk_key : string;
  vk_default : option pyval;
  vk_validator : vol_validator
}.

Record vol_schema := {
  schema_keys : list vol_key;
  schema_extra : vol_extra
}.

(** The default the schema shows for [key], if it has one. *)
Definition schema_default (sch : vol_schema) (key : string) : option pyval :=
  match List.find (fun k => String.eqb (vk_key k) key) (schema_keys sch) with
  | Some k => vk_default k
  | None => None
  end.

(** A stored configuration entry. *)
Record config_entry := {
  entry_title : string;
  entry_data : pydict;
  entry_options : pydict;
  entry_unique_id : pyval
}.

(** What a step of a flow returns to the framework. *)
Inductive flow_result :=
  | ResultForm (step_id : string) (data_schema : vol_schema)
               (errors : option (gmap string string))
  | ResultCreateEntry (title : string) (data : pydict)
  | ResultAbort.

Inductive log_record :=
  | LogError (msg : string)
  | LogException (msg : string).

(** The state a step runs in: the entries the host application stores, the
    attributes and the context of the flow object, the jobs handed to the
    executor and the records sent to the logger, the last two in order. *)
Record state := {
  hass_entries : list config_entry;
  ctx_unique_id : pyval;
  ctx_title_placeholders : option pydict;
  self_discovered_conf : pydict;
  executor_jobs : list conn_args;
  logged : list log_record
}.

Definition with_unique_id (v : pyval) (st : state) : state :=
  {| hass_entries := hass_entries st;
     ctx_unique_id := v;
     ctx_title_placeholders := ctx_title_placeholders st;
     self_discovered_conf := self_discovered_conf st;
     executor_jobs := executor_jobs st;
     logged := logged st |}.

Definition with_title_placeholders (d : pydict) (st : state) : state :=
  {| hass_entries := hass_entries st;
     ctx_unique_id := ctx_unique_id st;
     ctx_title_placeholders := Some d;
     self_discovered_conf := self_discovered_conf st;
     executor_jobs := executor_jobs st;
     logged := logged st |}.

Definition with_discovered_conf (d : pydict) (st : state) : state :=
  {| hass_entries := hass_entries st;
     ctx_unique_id := ctx_unique_id st;
     ctx_title_placeholders := ctx_title_placeholders st;
     self_discovered_conf := d;
     executor_jobs := executor_jobs st;
     logged := logged st |}.

Definition with_job (a : conn_args) (st : state) : state :=
  {| hass_entries := hass_entries st;
     ctx_unique_id := ctx_unique_id st;
     ctx_title_placeholders := ctx_title_placeholders st;
     self_discovered_conf := self_discovered_conf st;
     executor_jobs := executor_jobs st ++ [a];
     logged := logged st |}.

Definition with_log (r : log_record) (st : state) : state :=
  {| hass_entries := hass_entries st;
     ctx_unique_id := ctx_unique_id st;
     ctx_title_placeholders := ctx_title_placeholders st;
     self_discovered_conf := self_discovered_conf st;
     executor_jobs := executor_jobs st;
     logged := logged st ++ [r] |}.

Definition with_entry (e : config_entry) (st : state) : state :=
  {| hass_entries := hass_entries st ++ [e];
     ctx_unique_id := ctx_unique_id st;
     ctx_title_placeholders := ctx_title_placeholders st;
     self_discovered_conf := self_discovered_conf st;
     executor_jobs := executor_jobs st;
     logged := logged st |}.

(** The flow object as [ConfigFlow.__init__] leaves it, for a host
    application that stores [entries]. *)
Definition initial_state (entries : list config_entry) : state :=
  {| hass_entries := entries;
     ctx_unique_id := VNone;
     ctx_title_placeholders := None;
     self_discovered_conf := ∅;
     executor_jobs := [];
     logged := [] |}.

(** ** The monad of steps *)

(** A computation that reads and writes the [state] and either returns a
    value or raises an exception. *)
Definition Flow (A : Type) : Type := state -> (exn + A) * state.

Definition ret {A} (a : A) : Flow A := fun st => (inr a, st).

Definition raise {A} (e : exn) : Flow A := fun st => (inl e, st).

Definition bind {A B} (m : Flow A) (k : A -> Flow B) : Flow B :=
  fun st =>
    match m st with
    | (inr a, st') => k a st'
    | (inl e, st') => (inl e, st')
    end.

(** [try: m] with the exception, if any, handed to the handlers. *)
Definition attempt {A} (m : Flow A) : Flow (exn + A) :=
  fun st => let '(r, st') := m st in (inr r, st').

(** A call of a function that does not touch the state. *)
Definition call {A} (r : exn + A) : Flow A := fun st => (r, st).

Definition get_state : Flow state := fun st => (inr st, st).

Definition modify (f : state -> state) : Flow unit := fun st => (inr tt, f st).

Notation "'let*' x := m 'in' k" := (bind m (fun x => k))
  (at level 10, x pattern, m at level 100, k at level 200).
Notation "m ;; k" := (bind m (fun _ => k))
  (at level 100, k at level 200, right associativity).

(** [d[key]] *)
Definition getitem (d : pydict) (key : string) : Flow pyval :=
  match d !! key with
  | Some v => ret v
  | None => raise (KeyError key)
  end.

(** A method of [str] called on [v]. *)
Definition as_str (v : pyval) : Flow string :=
  match v with
  | VStr s => ret s
  | _ => raise AttributeError
  end.

Definition _LOGGER_error (msg : string) : Flow unit := modify (with_log (LogError msg)).
Definition _LOGGER_exception (msg : string) : Flow unit :=
  modify (with_log (LogException msg)).

(** [target] called with the unpacked [args]. *)
Definition apply_args {A}
    (target : option string -> Z -> pyval -> pyval -> bool -> pyval -> string -> A)
    (args : conn_args) : A :=
  target (address args) (conn_port args) (username args) (password args)
         (use_https args) (tls_ver args) (webroot args).

(** [x or d] for a port. *)
Definition port_or (x : option Z) (d : Z) : Z :=
  match x with
  | Some n => if n =? 0 then d else n
  | None => d
  end.

(** [a == b] on values: numbers compare by value across [bool], [int] and
    [float], a NaN equals nothing, and values of unrelated types differ. *)
Definition float_eq_int (x : spec_float) (z : Z) : bool :=
  match x with
  | S754_zero _ => z =? 0
  | S754_finite s m e =>
      let v := if s then Z.neg m else Z.pos m in
      if 0 <=? e then z =? v * 2 ^ e
      else (v mod 2 ^ (- e) =? 0) && (z =? v / 2 ^ (- e))
  | _ => false
  end.

Definition as_int (v : pyval) : option Z :=
  match v with
  | VBool b => Some (if b then 1 else 0)
  | VInt z => Some z
  | _ => None
  end.

Definition py_eq (a b : pyval) : bool :=
  match a, b with
  | VNone, VNone => true
  | VStr s, VStr t => String.eqb s t
  | VFloat x, VFloat y => SFeqb x y
  | VFloat x, _ => match as_int b with Some z => float_eq_int x z | None => false end
  | _, VFloat y => match as_int a with Some z => float_eq_int y z | None => false end
  | _, _ =>
      match as_int a, as_int b with
      | Some z, Some w => z =? w
      | _, _ => false
      end
  end.

(** ** What the module imports *)

(** The constants the module imports from [homeassistant.const],
    [homeassistant.components.ssdp] and its own [const.py]. Those files are
    not part of the sources at hand, and the flow only uses these names as
    dictionary keys and as defaults, so they are parameters. *)
Class Constants := {
  CONF_HOST : string;
  CONF_NAME : string;
  CONF_PASSWORD : string;
  CONF_USERNAME : string;
  CONF_IGNORE_STRING : string;
  CONF_RESTORE_LIGHT_STATE : string;
  CONF_SENSOR_STRING : string;
  CONF_TLS_VER : string;
  CONF_VAR_SENSOR_STRING : string;
  DEFAULT_IGNORE_STRING : pyval;
  DEFAULT_RESTORE_LIGHT_STATE : pyval;
  DEFAULT_SENSOR_STRING : pyval;
  DEFAULT_TLS_VERSION : pyval;
  DEFAULT_VAR_SENSOR_STRING : pyval;
  ATTR_UPNP_FRIENDLY_NAME : string;
  ATTR_SSDP_LOCATION : string;
  ATTR_UPNP_UDN : string
}.

(** Modelled from the spec: the suffix of the advertisement URL that the
    discovery step strips; [const.py], which defines it, is missing. The
    spec gives its value in the discovery example of section 8. *)
Definition ISY_URL_POSTFIX : string := "/desc".

(** Modelled from the spec: the prefix of the device identifier that the
    discovery step strips; [const.py], which defines it, is missing. The
    spec gives its value in the discovery example of section 8. *)
Definition UDN_UUID_PREFIX : string := "uuid:".

(** The foreign code the module calls: [urllib.parse.urlparse], the
    formatting of a float, and the device-control library [pyisy]. Each
    call either returns or raises; nothing more is assumed of them. *)
Class Library := {
  urlparse : pyval -> exn + parse_result;
  float_repr : spec_float -> string;
  connection : Type;
  Connection : conn_args -> exn + connection;
  get_config : connection -> exn + pyval;
  Configuration : pyval -> exn + pydict
}.

(** ** The flow framework *)

(** Modelled from the spec: [async_show_form] of the flow framework
    ([homeassistant/data_entry_flow.py] is missing): the step answers
    show-form, with the given step name, schema and errors. *)
Definition async_show_form (step_id : string) (data_schema : vol_schema)
    (errors : option (gmap string string)) : flow_result :=
  ResultForm step_id data_schema errors.

(** Modelled from the spec: [async_create_entry] of the flow framework
    ([homeassistant/data_entry_flow.py] is missing): the step answers
    create-entry, with the given title and data. *)
Definition async_create_entry (title : string) (data : pydict) : flow_result :=
  ResultCreateEntry title data.

(** Modelled from the spec: [ConfigFlow.async_set_unique_id]
    ([homeassistant/config_entries.py] is missing): the value becomes the
    deduplication identifier of the flow. The spec leaves flows that run at
    the same time out of scope, so [raise_on_progress] is not consulted. *)
Definition async_set_unique_id (unique_id : pyval) (raise_on_progress : bool)
    : Flow unit :=
  modify (with_unique_id unique_id).

(** Modelled from the spec: [ConfigFlow._abort_if_unique_id_configured]
    ([homeassistant/config_entries.py] is missing): the flow aborts if an
    entry with the identifier of the flow already exists. [None] is the
    absence of an identifier and aborts nothing. *)
Definition _abort_if_unique_id_configured : Flow unit :=
  let* st := get_state in
  match ctx_unique_id st with
  | VNone => ret tt
  | unique_id =>
      if existsb (fun entry => py_eq (entry_unique_id entry) unique_id)
                 (hass_entries st)
      then raise AbortFlow
      else ret tt
  end.

(** How a step of the setup wizard ends for the caller of the framework. *)
Inductive outcome :=
  | Finished (r : flow_result)
  | Failed (e : exn).

(** Modelled from the spec: the flow manager of the host application
    ([homeassistant/config_entries.py] and [data_entry_flow.py] are
    missing) around one step of the setup wizard. A create-entry answer is
    persisted as a new entry whose data are the data of the answer and
    whose unique id is the deduplication identifier of the flow; the abort
    signal ends the flow in abort; nothing else touches the entries. *)
Definition run_step (step : Flow flow_result) (st : state) : outcome * state :=
  match step st with
  | (inr (ResultCreateEntry title data), st') =>
      (Finished (ResultCreateEntry title data),
       with_entry {| entry_title := title;
                     entry_data := data;
                     entry_options := ∅;
                     entry_unique_id := ctx_unique_id st' |} st')
  | (inr r, st') => (Finished r, st')
  | (inl AbortFlow, st') => (Finished ResultAbort, st')
  | (inl e, st') => (Failed e, st')
  end.

(** Modelled from the spec: the options-flow manager of the host
    application ([homeassistant/config_entries.py] is missing). The data of
    a create-entry answer become the options of the entry; any other
    answer leaves the entry as it is. *)
Definition finish_options_flow (entry : config_entry) (r : flow_result)
    : config_entry :=
  match r with
  | ResultCreateEntry _ data =>
      {| entry_title := entry_title entry;
         entry_data := entry_data entry;
         entry_options := data;
         entry_unique_id := entry_unique_id entry |}
  | _ => entry
  end.

(** ** The module *)

Section ConfigFlow.

Context {K : Constants} {L : Library}.

(** [str(v)], as an f-string formats [v]. *)
Definition py_str (v : pyval) : string :=
  match v with
  | VNone => "None"
  | VBool true => "True"
  | VBool false => "False"
  | VInt z => NilZero.string_of_int (Z.to_int z)
  | VFloat x => float_repr x
  | VStr s => s
  end.

Definition of_hostname (h : option string) : pyval :=
  match h with
  | Some s => VStr s
  | None => VNone
  end.

(** [_data_schema]: the schema of the form of the [user] step. *)
Definition _data_schema (schema_input : pydict) : vol_schema :=
  {| schema_keys :=
       [ {| vk_marker := Required; vk_key := CONF_HOST;
            vk_default := Some (dict_get schema_input CONF_HOST (VStr ""));
            vk_validator := vol_str |};
         {| vk_marker := Required; vk_key := CONF_USERNAME;
            vk_default := None; vk_validator := vol_str |};
         {| vk_marker := Required; vk_key := CONF_PASSWORD;
            vk_default := None; vk_validator := vol_str |};
         {| vk_marker := Optional; vk_key := CONF_TLS_VER;
            vk_default := Some DEFAULT_TLS_VERSION;
            vk_validator := vol_In [VFloat float_1_1; VFloat float_1_2] |} ];
     schema_extra := ALLOW_EXTRA |}.

(** [_fetch_isy_configuration]: a [ValueError] of the constructor of the
    connection becomes [InvalidAuth] with the first argument of the
    error; every other exception passes. *)
Definition _fetch_isy_configuration (address : option string) (port : Z)
    (username password : pyval) (use_https : bool) (tls_ver : pyval)
    (webroot : string) : exn + pydict :=
  match Connection {| address := address; conn_port := port;
                      username := username; password := password;
                      use_https := use_https; tls_ver := tls_ver;
                      webroot := webroot |} with
  | inl (ValueError err_args) =>
      match err_args with
      | arg0 :: _ => inl (InvalidAuth arg0)
      | [] => inl IndexError
      end
  | inl err => inl err
  | inr isy_conn =>
      match get_config isy_conn with
      | inl err => inl err
      | inr xml => Configuration xml
      end
  end.

(** [hass.async_add_executor_job] with [target] and its arguments,
    awaited: the job is
    handed to the executor and the flow resumes with what it returns or
    raises. *)
Definition async_add_executor_job {A}
    (target : option string -> Z -> pyval -> pyval -> bool -> pyval -> string
              -> exn + A)
    (args : conn_args) : Flow A :=
  modify (with_job args);;
  call (apply_args target args).

(** [validate_input] *)
Definition validate_input (data : pydict) : Flow device_info :=
  let* user := getitem data CONF_USERNAME in
  let* password := getitem data CONF_PASSWORD in
  let* host_value := getitem data CONF_HOST in
  let* host := call (urlparse host_value) in
  let tls_version := dict_get data CONF_TLS_VER VNone in
  let* (https, port) :=
    (if String.eqb (scheme host) "http" then
       let* p := call (port host) in
       ret (false, port_or p 80)
     else if String.eqb (scheme host) "https" then
       let* p := call (port host) in
       ret (true, port_or p 443)
     else
       _LOGGER_error "The isy994 host value in configuration is invalid";;
       raise InvalidHost) in
  let* isy_conf :=
    async_add_executor_job _fetch_isy_configuration
      {| address := hostname host; conn_port := port;
         username := user; password := password;
         use_https := https; tls_ver := tls_version;
         webroot := path host |} in
  if dict_falsy isy_conf
     || match isy_conf !! "name" with
        | None => true
        | Some name => negb (truthy name)
        end
  then raise CannotConnect
  else
    let* name := getitem isy_conf "name" in
    let* uuid := getitem isy_conf "uuid" in
    ret {| info_title :=
             py_str name ++ " (" ++ py_str (of_hostname (hostname host)) ++ ")";
           info_uuid := uuid |}.

(** The [except] clauses of [async_step_user]: the error kind a failed
    validation leaves under the key ["base"]. *)
Definition handle_error (err : exn) : Flow (gmap string string) :=
  match err with
  | CannotConnect => ret {[ "base" := "cannot_connect" ]}
  | InvalidHost => ret {[ "base" := "invalid_host" ]}
  | InvalidAuth _ => ret {[ "base" := "invalid_auth" ]}
  | _ =>
      _LOGGER_exception "Unexpected exception";;
      ret {[ "base" := "unknown" ]}
  end.

(** [ConfigFlow.async_step_user] *)
Definition async_step_user (user_input : option pydict) : Flow flow_result :=
  let show_form (errors : gmap string string) : Flow flow_result :=
    let* self := get_state in
    ret (async_show_form "user" (_data_schema (self_discovered_conf self))
                         (Some errors)) in
  match user_input with
  | Some user_input =>
      let* r := attempt (validate_input user_input) in
      let* (info, errors) :=
        match r with
        | inr info => ret (Some info, ∅)
        | inl err => let* errors := handle_error err in ret (None, errors)
        end in
      if bool_decide (errors = ∅) then
        match info with
        | Some info =>
            async_set_unique_id (info_uuid info) false;;
            _abort_if_unique_id_configured;;
            ret (async_create_entry (info_title info) user_input)
        | None => raise TypeError
        end
      else show_form errors
  | None => show_form ∅
  end.

(** [ConfigFlow.async_step_import] *)
Definition async_step_import (user_input : pydict) : Flow flow_result :=
  async_step_user (Some user_input).

(** [ConfigFlow.async_step_ssdp] *)
Definition async_step_ssdp (discovery_info : pydict) : Flow flow_result :=
  let* friendly_name := getitem discovery_info ATTR_UPNP_FRIENDLY_NAME in
  let* url := getitem discovery_info ATTR_SSDP_LOCATION in
  let* mac := getitem discovery_info ATTR_UPNP_UDN in
  let* mac := as_str mac in
  let mac :=
    if PyStr.startswith mac UDN_UUID_PREFIX
    then PyStr.slice_from mac (String.length UDN_UUID_PREFIX)
    else mac in
  let* url := as_str url in
  let url :=
    if PyStr.endswith url ISY_URL_POSTFIX
    then PyStr.slice_to_neg url (String.length ISY_URL_POSTFIX)
    else url in
  async_set_unique_id (VStr mac) true;;
  _abort_if_unique_id_configured;;
  modify (with_discovered_conf
            (<[ CONF_HOST := VStr url ]> {[ CONF_NAME := friendly_name ]}));;
  let* self := get_state in
  modify (with_title_placeholders (self_discovered_conf self));;
  async_step_user None.

(** [OptionsFlowHandler.async_step_init], for the handler of
    [config_entry]. *)
Definition async_step_init (config_entry : config_entry)
    (user_input : option pydict) : flow_result :=
  match user_input with
  | Some user_input => async_create_entry "" user_input
  | None =>
      let options := entry_options config_entry in
      let restore_light_state :=
        dict_get options CONF_RESTORE_LIGHT_STATE DEFAULT_RESTORE_LIGHT_STATE in
      let ignore_string :=
        dict_get options CONF_IGNORE_STRING DEFAULT_IGNORE_STRING in
      let sensor_string :=
        dict_get options CONF_SENSOR_STRING DEFAULT_SENSOR_STRING in
      let var_sensor_string :=
        dict_get options CONF_VAR_SENSOR_STRING DEFAULT_VAR_SENSOR_STRING in
      let options_schema :=
        {| schema_keys :=
             [ {| vk_marker := Optional; vk_key := CONF_IGNORE_STRING;
                  vk_default := Some ignore_string; vk_validator := vol_str |};
               {| vk_marker := Optional; vk_key := CONF_SENSOR_STRING;
                  vk_default := Some sensor_string; vk_validator := vol_str |};
               {| vk_marker := Optional; vk_key := CONF_VAR_SENSOR_STRING;
                  vk_default := Some var_sensor_string;
                  vk_validator := vol_str |};
               {| vk_marker := Required; vk_key := CONF_RESTORE_LIGHT_STATE;
                  vk_default := Some restore_light_state;
                  vk_validator := vol_bool |} ];
           schema_extra := PREVENT_EXTRA |} in
      async_show_form "init" options_schema None
  end.

End ConfigFlow.

(** ** A concrete instance *)

(** The values the constants have upstream, and a small library: two hubs
    on the local network, one answering with its name and identifier, the
    other with an empty configuration, both refusing any password but
    ["secret"]. The instance serves the examples below. *)
Module Sample.

Definition constants : Constants :=
  {| CONF_HOST := "host";
     CONF_NAME := "name";
     CONF_PASSWORD := "password";
     CONF_USERNAME := "username";
     CONF_IGNORE_STRING := "ignore_string";
     CONF_RESTORE_LIGHT_STATE := "restore_light_state";
     CONF_SENSOR_STRING := "sensor_string";
     CONF_TLS_VER := "tls";
     CONF_VAR_SENSOR_STRING := "variable_sensor_string";
     DEFAULT_IGNORE_STRING := VStr "{IGNORE ME}";
     DEFAULT_RESTORE_LIGHT_STATE := VBool false;
     DEFAULT_SENSOR_STRING := VStr "sensor";
     DEFAULT_TLS_VERSION := VFloat float_1_1;
     DEFAULT_VAR_SENSOR_STRING := VStr "HA.";
     ATTR_UPNP_FRIENDLY_NAME := "friendlyName";
     ATTR_SSDP_LOCATION := "ssdp_location";
     ATTR_UPNP_UDN := "UDN" |}.

Definition parsed (sch : string) (host : string) : parse_result :=
  {| scheme := sch; hostname := Some host; port := inr None; path := "" |}.

Definition parse_url (v : pyval) : exn + parse_result :=
  match v with
  | VStr "http://192.168.1.50" => inr (parsed "http" "192.168.1.50")
  | VStr "https://192.168.1.50" => inr (parsed "https" "192.168.1.50")
  | VStr "http://192.168.1.51" => inr (parsed "http" "192.168.1.51")
  | VStr "ftp://192.168.1.50" => inr (parsed "ftp" "192.168.1.50")
  | VStr s => inr {| scheme := ""; hostname := None; port := inr None; path := s |}
  | _ => inl AttributeError
  end.

Definition connect (a : conn_args) : exn + option string :=
  match password a with
  | VStr "secret" => inr (address a)
  | _ => inl (ValueError [VStr "Invalid credentials"])
  end.

Definition fetch_xml (c : option string) : exn + pyval :=
  match c with
  | Some h => inr (VStr h)
  | None => inr VNone
  end.

Definition parse_xml (xml : pyval) : exn + pydict :=
  match xml with
  | VStr "192.168.1.50" =>
      inr (<[ "uuid" := VStr "ABC123" ]> {[ "name" := VStr "Hub1" ]})
  | _ => inr ∅
  end.

Definition library : Library :=
  {| urlparse := parse_url;
     float_repr := fun _ => "1.1";
     connection := option string;
     Connection := connect;
     get_config := fetch_xml;
     Configuration := parse_xml |}.

(** What a user types into the form for the hub at [host]. *)
Definition submission (host pass : string) : pydict :=
  <[ "host" := VStr host ]>
    (<[ "username" := VStr "admin" ]>
       (<[ "password" := VStr pass ]> {[ "tls" := VFloat float_1_1 ]})).

(** An entry for a hub already configured under the identifier [uid]. *)
Definition configured (uid : string) : config_entry :=
  {| entry_title := "Hub1 (192.168.1.50)";
     entry_data := submission "http://192.168.1.50" "secret";
     entry_options := ∅;
     entry_unique_id := VStr uid |}.

(** The advertisement of the discovery example of the specification. *)
Definition advertisement : pydict :=
  <[ "friendlyName" := VStr "ISY" ]>
    (<[ "ssdp_location" := VStr "http://192.168.1.50:80/desc" ]>
       {[ "UDN" := VStr "uuid:ABC123" ]}).

(** The job a submission for the hub at [host] sends to the executor. *)
Definition job (host pass : string) (https : bool) (p : Z) : conn_args :=
  {| address := Some host; conn_port := p;
     username := VStr "admin"; password := VStr pass;
     use_https := https; tls_ver := VFloat float_1_1; webroot := "" |}.

(** What the first hub reports about itself. *)
Definition hub1 : pydict :=
  <[ "uuid" := VStr "ABC123" ]> {[ "name" := VStr "Hub1" ]}.

End Sample.

(** A second library, for the edges of the flow: hosts with an explicit
    port, a port out of range and no hostname; a connection that fails
    without a message; a hub whose configuration cannot be read, and one
    that reports a name and no identifier. *)
Module Edge.

Definition parse_url (v : pyval) : exn + parse_result :=
  match v with
  | VStr "http://192.168.1.50:8080" =>
      inr {| scheme := "http"; hostname := Some "192.168.1.50";
             port := inr (Some 8080); path := "" |}
  | VStr "https://192.168.1.50:0" =>
      inr {| scheme := "https"; hostname := Some "192.168.1.50";
             port := inr (Some 0); path := "" |}
  | VStr "http://192.168.1.50:99999" =>
      inr {| scheme := "http"; hostname := Some "192.168.1.50";
             port := inl (ValueError [VStr "Port out of range 0-65535"]);
             path := "" |}
  | VStr "http:///isy" =>
      inr {| scheme := "http"; hostname := None; port := inr None;
             path := "/isy" |}
  | VStr "http://192.168.1.52" => inr (Sample.parsed "http" "192.168.1.52")
  | VStr "http://192.168.1.53" => inr (Sample.parsed "http" "192.168.1.53")
  | _ => Sample.parse_url v
  end.

Definition connect (a : conn_args) : exn + option string :=
  match password a with
  | VStr "secret" => inr (address a)
  | VStr "" => inl (ValueError [])
  | _ => inl (ValueError [VStr "Invalid credentials"])
  end.

Definition fetch_xml (c : option string) : exn + pyval :=
  match c with
  | Some "192.168.1.52" => inl (ValueError [VStr "unreadable"])
  | Some h => inr (VStr h)
  | None => inr VNone
  end.

Definition parse_xml (xml : pyval) : exn + pydict :=
  match xml with
  | VStr "192.168.1.53" => inr {[ "name" := VStr "Hub3" ]}
  | VNone => inr (<[ "uuid" := VStr "XYZ789" ]> {[ "name" := VStr "Hub0" ]})
  | _ => Sample.parse_xml xml
  end.

Definition library : Library :=
  {| urlparse := parse_url;
     float_repr := fun _ => "1.1";
     connection := option string;
     Connection := connect;
     get_config := fetch_xml;
     Configuration := parse_xml |}.

End Edge.

(** The string an entry is stored under, if it is stored under one. *)
Definition entry_string_id (entry : config_entry) : option string :=
  match entry_unique_id entry with
  | VStr u => Some u
  | _ => None
  end.

(** No two of the entries are stored under the same string. *)
Definition distinct_ids (entries : list config_entry) : Prop :=
  NoDup (omap entry_string_id entries).

(** * Properties *)

(** ** Strings *)

Module PyStrFacts.
Import PyStr.

Lemma startswith_app (p r : string) : startswith (p ++ r) p = true.
Proof.
  induction p as [|a p IH]; simpl; [done|].
  by rewrite Ascii.eqb_refl, IH.
Qed.

Lemma startswith_inv (s p : string) :
  startswith s p = true -> exists r, s = p ++ r.
Proof.
  revert s. induction p as [|a p IH]; intros s H; simpl in *.
  - by exists s.
  - destruct s as [|b s]; [done|].
    apply andb_prop in H as [Hab Hs].
    apply Ascii.eqb_eq in Hab as ->.
    destruct (IH s Hs) as [r ->]. by exists r.
Qed.

Lemma slice_from_app (p r : string) : slice_from (p ++ r) (String.length p) = r.
Proof. induction p as [|a p IH]; simpl; done. Qed.

Lemma slice_to_app (b x : string) : slice_to (b ++ x) (String.length b) = b.
Proof. induction b as [|a b IH]; simpl; [done|by rewrite IH]. Qed.

Lemma length_app (b x : string) :
  String.length (b ++ x) = (String.length b + String.length x)%nat.
Proof. induction b as [|a b IH]; simpl; [done|by rewrite IH]. Qed.

Lemma slice_split (s : string) (n : nat) : s = slice_to s n ++ slice_from s n.
Proof.
  revert s. induction n as [|n IH]; intros s; simpl; [done|].
  destruct s as [|a s]; [done|].
  change (String a s = String a (slice_to s n ++ slice_from s n)).
  by rewrite <- IH.
Qed.

Lemma endswith_app (b x : string) : endswith (b ++ x) x = true.
Proof.
  unfold endswith. rewrite length_app.
  apply andb_true_intro; split.
  - apply Nat.leb_le. lia.
  - replace (String.length b + String.length x - String.length x)%nat
      with (String.length b) by lia.
    rewrite slice_from_app. apply String.eqb_refl.
Qed.

Lemma endswith_inv (s x : string) :
  endswith s x = true -> exists b, s = b ++ x.
Proof.
  unfold endswith. intros H. apply andb_prop in H as [_ H].
  apply String.eqb_eq in H.
  exists (slice_to s (String.length s - String.length x)).
  rewrite <- H at 2. apply slice_split.
Qed.

Lemma slice_to_neg_app (b x : string) :
  x <> "" -> slice_to_neg (b ++ x) (String.length x) = b.
Proof.
  intros Hx. unfold slice_to_neg.
  destruct x as [|a x]; [done|]. cbn [String.length].
  rewrite length_app. cbn [String.length].
  replace (String.length b + S (String.length x) - S (String.length x))%nat
    with (String.length b) by lia.
  apply slice_to_app.
Qed.

Example slice_to_neg_zero : slice_to_neg "abc" 0 = "".
Proof. reflexivity. Qed.

Example slice_to_neg_clamped : slice_to_neg "abc" 5 = "".
Proof. reflexivity. Qed.

Example endswith_postfix :
  endswith "http://192.168.1.50:80/desc" ISY_URL_POSTFIX = true.
Proof. reflexivity. Qed.

Example startswith_longer_prefix : startswith "uu" UDN_UUID_PREFIX = false.
Proof. reflexivity. Qed.

End PyStrFacts.

Arguments PyStr.startswith : simpl never.
Arguments PyStr.endswith : simpl never.
Arguments PyStr.slice_from : simpl never.
Arguments PyStr.slice_to_neg : simpl never.

(** ** Values and the framework *)

Lemma py_eq_str (v : pyval) (u : string) : py_eq v (VStr u) = true <-> v = VStr u.
Proof.
  destruct v as [| b | z | x | s]; simpl; try (split; [done | intros [=]]).
  rewrite String.eqb_eq. split; [by intros -> | by intros [= ->]].
Qed.

Lemma existsb_unique_id (entries : list config_entry) (u : string) :
  existsb (fun entry => py_eq (entry_unique_id entry) (VStr u)) entries = true
  <-> exists entry, In entry entries /\ entry_unique_id entry = VStr u.
Proof.
  rewrite existsb_exists. split; intros (e & He & Hu); exists e; split; try done.
  - by apply py_eq_str.
  - by apply py_eq_str.
Qed.

Example py_eq_bool_int : py_eq (VBool true) (VInt 1) = true.
Proof. reflexivity. Qed.

Example py_eq_float_int : py_eq (VFloat (S754_finite false 3 1)) (VInt 6) = true.
Proof. reflexivity. Qed.

Example py_eq_str_none : py_eq (VStr "None") VNone = false.
Proof. reflexivity. Qed.

Lemma errors_nonempty (kind : string) :
  bool_decide (({[ "base" := kind ]} : gmap string string) = ∅) = false.
Proof. apply bool_decide_eq_false_2, map_non_empty_singleton. Qed.

Ltac flow_unfold :=
  unfold bind, ret, raise, call, attempt, modify, get_state, getitem, as_str,
    _LOGGER_error, _LOGGER_exception in *.

(** Case analysis on a scrutinee of the goal that has no [match] inside. *)
Ltac destruct_inner :=
  match goal with
  | |- context [match ?x with _ => _ end] =>
      lazymatch x with
      | context [match _ with _ => _ end] => fail
      | _ => destruct x eqn:?
      end
  end.

Section FlowFacts.

Context {K : Constants} {L : Library}.

(** The clauses of the handler leave one error, under ["base"], of one of
    the four kinds, and touch nothing but the log. *)
Lemma handle_error_spec (err : exn) (st : state) :
  exists kind st',
    handle_error err st = (inr {[ "base" := kind ]}, st')
    /\ In kind ["cannot_connect"; "invalid_host"; "invalid_auth"; "unknown"]
    /\ hass_entries st' = hass_entries st
    /\ self_discovered_conf st' = self_discovered_conf st
    /\ executor_jobs st' = executor_jobs st.
Proof.
  destruct err; simpl;
    try (by eexists "unknown", _; flow_unfold; simpl; intuition eauto).
  - eexists "invalid_host", _. flow_unfold. simpl. intuition eauto.
  - eexists "cannot_connect", _. flow_unfold. simpl. intuition eauto.
  - eexists "invalid_auth", _. flow_unfold. simpl. intuition eauto.
Qed.

(** What the fetch makes of a [ValueError] of the constructor of the
    connection: [InvalidAuth] with its first argument, or, when it has no
    argument to index, [IndexError]. *)
Lemma fetch_value_error (args : conn_args) (err_args : list pyval) :
  Connection args = inl (ValueError err_args) ->
  apply_args _fetch_isy_configuration args =
    match err_args with
    | arg0 :: _ => inl (InvalidAuth arg0)
    | [] => inl IndexError
    end.
Proof.
  intros Hconn. unfold apply_args, _fetch_isy_configuration.
  destruct args. simpl. by rewrite Hconn.
Qed.

(** Validation touches the executor and the log, and nothing else. *)
Lemma validate_input_frame (data : pydict) (st st' : state) r :
  validate_input data st = (r, st') ->
  hass_entries st' = hass_entries st
  /\ ctx_unique_id st' = ctx_unique_id st
  /\ self_discovered_conf st' = self_discovered_conf st.
Proof.
  unfold validate_input, async_add_executor_job. flow_unfold.
  repeat (destruct_inner; simpl); intros [= <- <-]; simpl; auto.
Qed.

(** Validation either fails before any job reaches the executor, or
    hands over exactly one job and turns its answer into its own. *)
Lemma validate_input_cases (data : pydict) (st : state) :
  (exists e st',
      validate_input data st = (inl e, st')
      /\ executor_jobs st' = executor_jobs st)
  \/ (exists hv host args,
        data !! CONF_HOST = Some hv
        /\ urlparse hv = inr host
        /\ address args = hostname host
        /\ validate_input data st =
             (match apply_args _fetch_isy_configuration args with
              | inl e => inl e
              | inr isy_conf =>
                  if dict_falsy isy_conf
                     || match isy_conf !! "name" with
                        | None => true
                        | Some name => negb (truthy name)
                        end
                  then inl CannotConnect
                  else
                    match isy_conf !! "name" with
                    | Some name =>
                        match isy_conf !! "uuid" with
                        | Some uuid =>
                            inr {| info_title :=
                                     py_str name ++ " ("
                                     ++ py_str (of_hostname (hostname host))
                                     ++ ")";
                                   info_uuid := uuid |}
                        | None => inl (KeyError "uuid")
                        end
                    | None => inl (KeyError "name")
                    end
              end, with_job args st)).
Proof.
  unfold validate_input, async_add_executor_job. flow_unfold.
  destruct (data !! CONF_USERNAME) as [user|]; simpl; [|left; eauto].
  destruct (data !! CONF_PASSWORD) as [pw|]; simpl; [|left; eauto].
  destruct (data !! CONF_HOST) as [hv|]; simpl; [|left; eauto].
  destruct (urlparse hv) as [e|host] eqn:Hparse; simpl; [left; eauto|].
  destruct (String.eqb (scheme host) "http"); simpl;
    [|destruct (String.eqb (scheme host) "https"); simpl; [|left; eauto]].
  all: destruct (port host) as [e|p]; simpl; [left; eauto|].
  all: right; exists hv, host;
    match goal with |- context [with_job ?a _] => exists a end;
    split; [done|]; split; [done|]; split; [done|].
  all: unfold apply_args; simpl.
  all: repeat (destruct_inner; simpl); try reflexivity.
Qed.

(** A validation that handed [args] to the executor. *)
Lemma validate_input_job (data : pydict) (st st1 : state) r (args : conn_args) :
  validate_input data st = (r, st1) ->
  executor_jobs st1 = (executor_jobs st ++ [args])%list ->
  exists hv host,
    data !! CONF_HOST = Some hv
    /\ urlparse hv = inr host
    /\ address args = hostname host
    /\ st1 = with_job args st
    /\ r = match apply_args _fetch_isy_configuration args with
           | inl e => inl e
           | inr isy_conf =>
               if dict_falsy isy_conf
                  || match isy_conf !! "name" with
                     | None => true
                     | Some name => negb (truthy name)
                     end
               then inl CannotConnect
               else
                 match isy_conf !! "name" with
                 | Some name =>
                     match isy_conf !! "uuid" with
                     | Some uuid =>
                         inr {| info_title :=
                                  py_str name ++ " ("
                                  ++ py_str (of_hostname (hostname host))
                                  ++ ")";
                                info_uuid := uuid |}
                     | None => inl (KeyError "uuid")
                     end
                 | None => inl (KeyError "name")
                 end
           end.
Proof.
  intros Hrun Hjobs.
  destruct (validate_input_cases data st)
    as [(e & st' & Hv & Hsame) | (hv & host & args' & Hh & Hp & Ha & Hv)];
    rewrite Hv in Hrun; injection Hrun as <- <-.
  - rewrite Hsame in Hjobs. apply (f_equal length) in Hjobs.
    rewrite length_app in Hjobs. simpl in Hjobs. lia.
  - simpl in Hjobs. apply app_inv_head in Hjobs. injection Hjobs as ->.
    exists hv, host. auto.
Qed.

(** The [user] step after a failed validation whose error the handler
    turned into [kind]. *)
Lemma async_step_user_handled (data : pydict) (st st1 st' : state) (e : exn)
    (kind : string) :
  validate_input data st = (inl e, st1) ->
  handle_error e st1 = (inr {[ "base" := kind ]}, st') ->
  async_step_user (Some data) st =
    (inr (ResultForm "user" (_data_schema (self_discovered_conf st))
                     (Some {[ "base" := kind ]})), st')
  /\ hass_entries st' = hass_entries st
  /\ executor_jobs st' = executor_jobs st1.
Proof.
  intros Hv He.
  destruct (handle_error_spec e st1) as (kind' & st'' & He' & _ & Hent & Hconf & Hjobs).
  rewrite He in He'. assert (st'' = st') as -> by congruence. clear He'.
  destruct (validate_input_frame _ _ _ _ Hv) as (Hent1 & _ & Hconf1).
  repeat split; [|congruence|done].
  unfold async_step_user, async_show_form. flow_unfold.
  rewrite Hv, He, errors_nonempty. simpl. by rewrite Hconf, Hconf1.
Qed.

(** The [user] step after a failed validation. *)
Lemma async_step_user_failure (data : pydict) (st st1 : state) (e : exn) :
  validate_input data st = (inl e, st1) ->
  exists kind st',
    handle_error e st1 = (inr {[ "base" := kind ]}, st')
    /\ async_step_user (Some data) st =
         (inr (ResultForm "user" (_data_schema (self_discovered_conf st))
                          (Some {[ "base" := kind ]})), st')
    /\ In kind ["cannot_connect"; "invalid_host"; "invalid_auth"; "unknown"]
    /\ hass_entries st' = hass_entries st
    /\ executor_jobs st' = executor_jobs st1.
Proof.
  intros Hv.
  destruct (handle_error_spec e st1) as (kind & st' & He & Hk & Hent & Hconf & Hjobs).
  destruct (validate_input_frame _ _ _ _ Hv) as (Hent1 & _ & Hconf1).
  exists kind, st'. repeat split; try done; [|congruence].
  unfold async_step_user, async_show_form. flow_unfold.
  rewrite Hv, He, errors_nonempty. simpl. by rewrite Hconf, Hconf1.
Qed.

(** The [ssdp] step on an advertisement that has its three fields, the
    location and the identifier being strings. *)
Lemma async_step_ssdp_run (discovery_info : pydict) (friendly_name : pyval)
    (url mac : string) (st : state) :
  discovery_info !! ATTR_UPNP_FRIENDLY_NAME = Some friendly_name ->
  discovery_info !! ATTR_SSDP_LOCATION = Some (VStr url) ->
  discovery_info !! ATTR_UPNP_UDN = Some (VStr mac) ->
  let mac' :=
    if PyStr.startswith mac UDN_UUID_PREFIX
    then PyStr.slice_from mac (String.length UDN_UUID_PREFIX) else mac in
  let url' :=
    if PyStr.endswith url ISY_URL_POSTFIX
    then PyStr.slice_to_neg url (String.length ISY_URL_POSTFIX) else url in
  let conf : pydict := <[ CONF_HOST := VStr url' ]> {[ CONF_NAME := friendly_name ]} in
  async_step_ssdp discovery_info st =
    if existsb (fun entry => py_eq (entry_unique_id entry) (VStr mac'))
               (hass_entries st)
    then (inl AbortFlow, with_unique_id (VStr mac') st)
    else (inr (ResultForm "user" (_data_schema conf) (Some ∅)),
          with_title_placeholders conf
            (with_discovered_conf conf (with_unique_id (VStr mac') st))).
Proof.
  intros Hn Hu Hm mac' url' conf.
  unfold async_step_ssdp, async_set_unique_id, _abort_if_unique_id_configured,
    async_step_user, async_show_form.
  flow_unfold. rewrite Hn, Hu, Hm. simpl.
  fold mac'. by destruct (existsb _ _).
Qed.

(** The [user] step after a successful validation. *)
Lemma async_step_user_success (data : pydict) (st st1 : state) (info : device_info) :
  validate_input data st = (inr info, st1) ->
  async_step_user (Some data) st =
    (async_set_unique_id (info_uuid info) false;;
     _abort_if_unique_id_configured;;
     ret (async_create_entry (info_title info) data)) st1.
Proof.
  intros Hv. unfold async_step_user. flow_unfold. by rewrite Hv.
Qed.

(** The deduplication of a flow whose identifier is a string. *)
Lemma dedup_run (u : string) (k : Flow flow_result) (st : state) :
  (async_set_unique_id (VStr u) false;; _abort_if_unique_id_configured;; k) st =
    if existsb (fun entry => py_eq (entry_unique_id entry) (VStr u))
               (hass_entries st)
    then (inl AbortFlow, with_unique_id (VStr u) st)
    else k (with_unique_id (VStr u) st).
Proof.
  unfold async_set_unique_id, _abort_if_unique_id_configured. flow_unfold.
  simpl. by destruct (existsb _ _).
Qed.

End FlowFacts.

(** ** Validation *)

Section Validation.

Context {K : Constants} {L : Library}.

(** C3. A submission whose host parses to a scheme other than ["http"] and
    ["https"] fails validation with [InvalidHost] before any job reaches
    the executor, and the [user] step answers with the form carrying the
    error kind [invalid_host]. *)
Theorem unrecognized_scheme_is_invalid_host
    (data : pydict) (st : state) (user pw hv : pyval) (host : parse_result) :
  data !! CONF_USERNAME = Some user ->
  data !! CONF_PASSWORD = Some pw ->
  data !! CONF_HOST = Some hv ->
  urlparse hv = inr host ->
  scheme host <> "http" ->
  scheme host <> "https" ->
  exists st',
    validate_input data st = (inl InvalidHost, st')
    /\ executor_jobs st' = executor_jobs st
    /\ async_step_user (Some data) st =
         (inr (ResultForm "user" (_data_schema (self_discovered_conf st))
                          (Some {[ "base" := "invalid_host" ]})), st').
Proof.
  intros Hu Hp Hh Hparse Hhttp Hhttps.
  apply String.eqb_neq in Hhttp, Hhttps.
  assert (validate_input data st =
            (inl InvalidHost,
             with_log (LogError "The isy994 host value in configuration is invalid") st))
    as Hv.
  { unfold validate_input. flow_unfold.
    rewrite Hu, Hp, Hh. simpl. rewrite Hparse. simpl.
    by rewrite Hhttp, Hhttps. }
  eexists. split; [exact Hv|]. split; [done|].
  by apply (async_step_user_handled _ _ _ _ _ _ Hv).
Qed.

(** C4. A submission whose host parses to the scheme ["http"] without a
    port is connected to on port 80 without encryption; with the scheme
    ["https"], on port 443 with encryption. *)
Theorem default_port_by_scheme
    (data : pydict) (st : state) (user pw hv : pyval) (host : parse_result) :
  data !! CONF_USERNAME = Some user ->
  data !! CONF_PASSWORD = Some pw ->
  data !! CONF_HOST = Some hv ->
  urlparse hv = inr host ->
  port host = inr None ->
  scheme host = "http" \/ scheme host = "https" ->
  exists args,
    executor_jobs (snd (validate_input data st)) = (executor_jobs st ++ [args])%list
    /\ (scheme host = "http" -> conn_port args = 80 /\ use_https args = false)
    /\ (scheme host = "https" -> conn_port args = 443 /\ use_https args = true).
Proof.
  intros Hu Hp Hh Hparse Hport Hscheme.
  unfold validate_input, async_add_executor_job. flow_unfold.
  rewrite Hu, Hp, Hh. simpl. rewrite Hparse. simpl.
  destruct Hscheme as [Hs | Hs]; rewrite Hs, Hport; simpl;
    eexists; (split; [by repeat (destruct_inner; simpl)|]);
    simpl; split; intros [=]; done.
Qed.

(** C5. When the job of a submission reached the executor and the
    constructor of the connection of the device-control library refused
    it with a [ValueError] carrying a message, the [user] step answers
    with the form carrying the error kind [invalid_auth]. *)
Theorem credential_failure_is_invalid_auth
    (data : pydict) (st : state) (args : conn_args) (msg : pyval)
    (rest : list pyval) :
  executor_jobs (snd (validate_input data st)) = (executor_jobs st ++ [args])%list ->
  Connection args = inl (ValueError (msg :: rest)) ->
  exists st',
    async_step_user (Some data) st =
      (inr (ResultForm "user" (_data_schema (self_discovered_conf st))
                       (Some {[ "base" := "invalid_auth" ]})), st')
    /\ hass_entries st' = hass_entries st.
Proof.
  intros Hjobs Hconn.
  destruct (validate_input data st) as [r st1] eqn:Hv. simpl in Hjobs.
  destruct (validate_input_job _ _ _ _ _ Hv Hjobs)
    as (hv & host & _ & _ & _ & -> & Hr).
  rewrite (fetch_value_error _ _ Hconn) in Hr. subst r.
  destruct (async_step_user_handled data st _ _ _ "invalid_auth" Hv eq_refl)
    as (Hstep & Hent & _).
  eauto.
Qed.

(** C6. When the job of a submission reached the executor and returned a
    configuration that is empty, has no ["name"], or has a name that is
    empty, validation fails with [CannotConnect]; the [user] step answers
    with the form carrying the error kind [cannot_connect], and the
    stored entries stay as they were. *)
Theorem unusable_name_is_cannot_connect
    (data : pydict) (st : state) (args : conn_args) (isy_conf : pydict) :
  executor_jobs (snd (validate_input data st)) = (executor_jobs st ++ [args])%list ->
  apply_args _fetch_isy_configuration args = inr isy_conf ->
  isy_conf = ∅
  \/ isy_conf !! "name" = None
  \/ (exists name, isy_conf !! "name" = Some name /\ truthy name = false) ->
  fst (validate_input data st) = inl CannotConnect
  /\ exists st',
       run_step (async_step_user (Some data)) st =
         (Finished (ResultForm "user" (_data_schema (self_discovered_conf st))
                               (Some {[ "base" := "cannot_connect" ]})), st')
       /\ hass_entries st' = hass_entries st.
Proof.
  intros Hjobs Hfetch Hbad.
  destruct (validate_input data st) as [r st1] eqn:Hv. simpl in Hjobs.
  destruct (validate_input_job _ _ _ _ _ Hv Hjobs)
    as (hv & host & _ & _ & _ & -> & Hr).
  rewrite Hfetch in Hr.
  assert (dict_falsy isy_conf
          || match isy_conf !! "name" with
             | None => true
             | Some name => negb (truthy name)
             end = true) as Hcond.
  { destruct Hbad as [-> | [-> | (name & -> & ->)]]; simpl;
      [done | apply orb_true_r | apply orb_true_r]. }
  rewrite Hcond in Hr. subst r. split; [done|].
  destruct (async_step_user_handled data st _ _ _ "cannot_connect" Hv eq_refl)
    as (Hstep & Hent & _).
  unfold run_step. rewrite Hstep. eauto.
Qed.

(** C8 (as amended). When validation of a submission fails, the [user]
    step answers with the form of the step [user], carrying exactly one
    error, under the key ["base"], of one of the four kinds. The host the
    form shows is the one kept from discovery, or the empty string when
    the flow kept none; the stored entries stay as they were. *)
Theorem failed_validation_rerenders_form
    (data : pydict) (st st1 : state) (e : exn) :
  validate_input data st = (inl e, st1) ->
  exists kind st' sch,
    async_step_user (Some data) st =
      (inr (ResultForm "user" sch (Some {[ "base" := kind ]})), st')
    /\ In kind ["invalid_host"; "cannot_connect"; "invalid_auth"; "unknown"]
    /\ sch = _data_schema (self_discovered_conf st)
    /\ schema_default sch CONF_HOST =
         Some (dict_get (self_discovered_conf st) CONF_HOST (VStr ""))
    /\ hass_entries st' = hass_entries st.
Proof.
  intros Hv.
  destruct (async_step_user_failure _ _ _ _ Hv)
    as (kind & st' & _ & Hstep & Hkind & Hent & _).
  exists kind, st', (_data_schema (self_discovered_conf st)).
  repeat split; try done.
  - simpl in *. tauto.
  - unfold schema_default. simpl. by rewrite String.eqb_refl.
Qed.

End Validation.

(** ** Entries and deduplication *)

Section Entries.

Context {K : Constants} {L : Library}.

(** C1. When an entry is stored under the string [u], a [user] or
    [import] step whose validation succeeded with the identifier [u], and
    an [ssdp] step that derived the identifier [u] from a well-formed
    advertisement, all end in abort, and the stored entries stay as they
    were, whatever else the input holds. *)
Theorem already_configured_aborts
    (st : state) (u : string) (entry : config_entry) :
  In entry (hass_entries st) ->
  entry_unique_id entry = VStr u ->
  (forall data info st1,
      validate_input data st = (inr info, st1) ->
      info_uuid info = VStr u ->
      exists st',
        run_step (async_step_user (Some data)) st = (Finished ResultAbort, st')
        /\ run_step (async_step_import data) st = (Finished ResultAbort, st')
        /\ hass_entries st' = hass_entries st)
  /\ (forall discovery_info friendly_name url mac,
        discovery_info !! ATTR_UPNP_FRIENDLY_NAME = Some friendly_name ->
        discovery_info !! ATTR_SSDP_LOCATION = Some (VStr url) ->
        discovery_info !! ATTR_UPNP_UDN = Some (VStr mac) ->
        ctx_unique_id (snd (async_step_ssdp discovery_info st)) = VStr u ->
        exists st',
          run_step (async_step_ssdp discovery_info) st = (Finished ResultAbort, st')
          /\ hass_entries st' = hass_entries st).
Proof.
  intros Hin Hid.
  assert (existsb (fun entry => py_eq (entry_unique_id entry) (VStr u))
                  (hass_entries st) = true) as Hex.
  { apply existsb_unique_id. eauto. }
  split.
  - intros data info st1 Hv Hu.
    destruct (validate_input_frame _ _ _ _ Hv) as (Hent & _ & _).
    unfold async_step_import, run_step.
    rewrite (async_step_user_success _ _ _ _ Hv), Hu, dedup_run, Hent, Hex.
    eexists. repeat split. simpl. done.
  - intros di friendly_name url mac Hn Hl Hm Hu.
    unfold run_step.
    rewrite (async_step_ssdp_run _ _ _ _ _ Hn Hl Hm) in Hu |- *.
    cbv zeta in Hu |- *.
    set (mac' := if PyStr.startswith mac UDN_UUID_PREFIX then _ else mac) in *.
    destruct (existsb (fun e => py_eq (entry_unique_id e) (VStr mac')) _)
      eqn:Hex'.
    + eexists. split; [reflexivity|done].
    + change (VStr mac' = VStr u) in Hu. injection Hu as Hu.
      rewrite Hu in Hex'. congruence.
Qed.

(** C2. When validation of a submission succeeded, the host parsed to the
    hostname [h], and the job that reached the executor returned a
    configuration with the name [n] and the identifier [u], both strings,
    then, unless an entry is stored under [u] already, the [user] step
    creates an entry titled [n (h)] with the unique id [u] and the
    submission as its data. *)
Theorem created_entry_title_and_unique_id
    (data : pydict) (st st1 : state) (info : device_info) (hv : pyval)
    (host : parse_result) (h n u : string) (args : conn_args)
    (isy_conf : pydict) :
  validate_input data st = (inr info, st1) ->
  data !! CONF_HOST = Some hv ->
  urlparse hv = inr host ->
  hostname host = Some h ->
  executor_jobs st1 = (executor_jobs st ++ [args])%list ->
  apply_args _fetch_isy_configuration args = inr isy_conf ->
  isy_conf !! "name" = Some (VStr n) ->
  isy_conf !! "uuid" = Some (VStr u) ->
  (forall entry, In entry (hass_entries st) -> entry_unique_id entry <> VStr u) ->
  exists st',
    run_step (async_step_user (Some data)) st =
      (Finished (ResultCreateEntry (n ++ " (" ++ h ++ ")") data), st')
    /\ hass_entries st' =
         (hass_entries st
          ++ [ {| entry_title := n ++ " (" ++ h ++ ")";
                  entry_data := data;
                  entry_options := ∅;
                  entry_unique_id := VStr u |} ])%list.
Proof.
  intros Hv Hh Hparse Hhost Hjobs Hfetch Hname Huuid Hfresh.
  destruct (validate_input_job _ _ _ _ _ Hv Hjobs)
    as (hv' & host' & Hh' & Hparse' & _ & -> & Hr).
  assert (hv' = hv) as -> by congruence.
  assert (host' = host) as -> by congruence.
  rewrite Hfetch, Hname, Huuid, Hhost in Hr.
  destruct (dict_falsy isy_conf || negb (truthy (VStr n))); [done|].
  injection Hr as ->.
  assert (existsb (fun entry => py_eq (entry_unique_id entry) (VStr u))
                  (hass_entries st) = false) as Hex.
  { apply not_true_is_false. intros (e & Hin & He)%existsb_unique_id.
    by apply (Hfresh e). }
  unfold run_step.
  rewrite (async_step_user_success _ _ _ _ Hv). cbn [info_uuid info_title].
  rewrite dedup_run. simpl.
  rewrite Hex. unfold ret, async_create_entry. simpl. eauto.
Qed.

(** C7. For an advertisement whose identifier is the known prefix
    followed by [rest] and whose location is [base] followed by the known
    suffix, the [ssdp] step takes [rest] as the deduplication identifier
    and, unless an entry is stored under [rest] already, keeps [base] as
    the host and shows it in the form. *)
Theorem discovery_strips_affixes
    (discovery_info : pydict) (friendly_name : pyval) (rest base : string)
    (st : state) :
  discovery_info !! ATTR_UPNP_FRIENDLY_NAME = Some friendly_name ->
  discovery_info !! ATTR_SSDP_LOCATION = Some (VStr (base ++ ISY_URL_POSTFIX)) ->
  discovery_info !! ATTR_UPNP_UDN = Some (VStr (UDN_UUID_PREFIX ++ rest)) ->
  ctx_unique_id (snd (async_step_ssdp discovery_info st)) = VStr rest
  /\ ((forall entry, In entry (hass_entries st) ->
                     entry_unique_id entry <> VStr rest) ->
      exists sch st',
        async_step_ssdp discovery_info st =
          (inr (ResultForm "user" sch (Some ∅)), st')
        /\ self_discovered_conf st' !! CONF_HOST = Some (VStr base)
        /\ schema_default sch CONF_HOST = Some (VStr base)).
Proof.
  intros Hn Hl Hm.
  rewrite (async_step_ssdp_run _ _ _ _ _ Hn Hl Hm). cbv zeta.
  rewrite PyStrFacts.startswith_app, PyStrFacts.slice_from_app,
    PyStrFacts.endswith_app, PyStrFacts.slice_to_neg_app by done.
  split.
  - by destruct (existsb _ _).
  - intros Hfresh.
    assert (existsb (fun entry => py_eq (entry_unique_id entry) (VStr rest))
                    (hass_entries st) = false) as ->.
    { apply not_true_is_false. intros (e & Hin & He)%existsb_unique_id.
      by apply (Hfresh e). }
    eexists _, _. split; [reflexivity|]. split.
    + simpl. apply lookup_insert_eq.
    + unfold schema_default. simpl. rewrite String.eqb_refl. simpl.
      unfold dict_get. by rewrite lookup_insert_eq.
Qed.

(** C10. An identifier that does not start with the known prefix becomes
    the deduplication identifier as it is, and a location that does not
    end with the known suffix becomes the host as it is; an affix that
    occurs twice is stripped once. The host is kept whenever the step
    does not end in abort. *)
Theorem discovery_keeps_values_without_affix
    (discovery_info : pydict) (friendly_name : pyval) (url mac : string)
    (st : state) :
  discovery_info !! ATTR_UPNP_FRIENDLY_NAME = Some friendly_name ->
  discovery_info !! ATTR_SSDP_LOCATION = Some (VStr url) ->
  discovery_info !! ATTR_UPNP_UDN = Some (VStr mac) ->
  let run := async_step_ssdp discovery_info st in
  ((~ exists rest, mac = UDN_UUID_PREFIX ++ rest) ->
   ctx_unique_id (snd run) = VStr mac)
  /\ ((~ exists base, url = base ++ ISY_URL_POSTFIX) ->
      fst run <> inl AbortFlow ->
      self_discovered_conf (snd run) !! CONF_HOST = Some (VStr url))
  /\ (forall rest,
        mac = UDN_UUID_PREFIX ++ UDN_UUID_PREFIX ++ rest ->
        ctx_unique_id (snd run) = VStr (UDN_UUID_PREFIX ++ rest))
  /\ (forall base,
        url = (base ++ ISY_URL_POSTFIX) ++ ISY_URL_POSTFIX ->
        fst run <> inl AbortFlow ->
        self_discovered_conf (snd run) !! CONF_HOST =
          Some (VStr (base ++ ISY_URL_POSTFIX))).
Proof.
  intros Hn Hl Hm run. subst run.
  rewrite (async_step_ssdp_run _ _ _ _ _ Hn Hl Hm). cbv zeta.
  repeat split.
  - intros Hno.
    destruct (PyStr.startswith mac UDN_UUID_PREFIX) eqn:Hs.
    { destruct Hno. by apply PyStrFacts.startswith_inv. }
    by destruct (existsb _ _).
  - intros Hno Hrun.
    destruct (PyStr.endswith url ISY_URL_POSTFIX) eqn:Hs.
    { destruct Hno. by apply PyStrFacts.endswith_inv. }
    destruct (existsb _ _); [done|]. simpl. apply lookup_insert_eq.
  - intros rest ->.
    rewrite PyStrFacts.startswith_app, PyStrFacts.slice_from_app.
    by destruct (existsb _ _).
  - intros base -> Hrun.
    rewrite PyStrFacts.endswith_app, PyStrFacts.slice_to_neg_app in * by done.
    destruct (existsb _ _); [done|]. simpl. apply lookup_insert_eq.
Qed.

(** C9. Whatever record is submitted to the options editor becomes the
    whole options record of the entry, whatever the entry stored before,
    and the rest of the entry stays as it was; submitting the
    restore-state boolean alone leaves a record with that field only. *)
Theorem options_are_replaced (entry : config_entry) (user_input : pydict) :
  let entry' :=
    finish_options_flow entry (async_step_init entry (Some user_input)) in
  async_step_init entry (Some user_input) = ResultCreateEntry "" user_input
  /\ entry_options entry' = user_input
  /\ entry_data entry' = entry_data entry
  /\ entry_unique_id entry' = entry_unique_id entry
  /\ entry_title entry' = entry_title entry
  /\ (forall b,
        user_input = {[ CONF_RESTORE_LIGHT_STATE := VBool b ]} ->
        dom (entry_options entry') = {[ CONF_RESTORE_LIGHT_STATE ]}
        /\ forall key, key <> CONF_RESTORE_LIGHT_STATE ->
                       entry_options entry' !! key = None).
Proof.
  simpl. repeat split; try done.
  - subst. apply dom_singleton_L.
  - intros key Hkey. subst. by apply lookup_singleton_ne.
Qed.

End Entries.


(** ** The flow on the sample instance *)

Section Examples.

#[local] Existing Instance Sample.constants.
#[local] Existing Instance Sample.library.

(** C8, as stated, fails: with nothing kept from discovery, a submission for
    [http://192.168.1.50] with a wrong password fails validation, and the
    form that comes back shows the empty string as the host, not the host
    of the submission. *)
Lemma form_not_prefilled_from_submission :
  let data := Sample.submission "http://192.168.1.50" "wrong" in
  let st := initial_state [] in
  (exists e st1, validate_input data st = (inl e, st1))
  /\ exists sch errors st',
       async_step_user (Some data) st = (inr (ResultForm "user" sch errors), st')
       /\ data !! CONF_HOST = Some (VStr "http://192.168.1.50")
       /\ schema_default sch CONF_HOST = Some (VStr "")
       /\ schema_default sch CONF_HOST <> data !! CONF_HOST.
Proof.
  intros data st. split.
  - eexists _, _. vm_compute. reflexivity.
  - eexists _, _, _. split; [vm_compute; reflexivity|].
    split; [vm_compute; reflexivity|].
    split; [vm_compute; reflexivity|].
    vm_compute. intros [=].
Qed.

(** The hub ABC123 is configured already: submitting it again and
    discovering it again both end in abort. *)
Lemma already_configured_aborts_witness :
  let st := initial_state [Sample.configured "ABC123"] in
  (exists st',
      run_step (async_step_user
                  (Some (Sample.submission "http://192.168.1.50" "secret"))) st
        = (Finished ResultAbort, st')
      /\ hass_entries st' = hass_entries st)
  /\ (exists st',
        run_step (async_step_ssdp Sample.advertisement) st
          = (Finished ResultAbort, st')
        /\ hass_entries st' = hass_entries st).
Proof.
  intros st.
  destruct (already_configured_aborts st "ABC123" (Sample.configured "ABC123"))
    as [Huser Hssdp]; [simpl; auto | reflexivity |].
  split.
  - destruct (Huser (Sample.submission "http://192.168.1.50" "secret")
                {| info_title := "Hub1 (192.168.1.50)"; info_uuid := VStr "ABC123" |}
                (with_job (Sample.job "192.168.1.50" "secret" false 80) st))
      as (st' & Hrun & _ & Hent); [vm_compute; reflexivity | reflexivity |].
    eauto.
  - destruct (Hssdp Sample.advertisement (VStr "ISY")
                "http://192.168.1.50:80/desc" "uuid:ABC123")
      as (st' & Hrun & Hent); [reflexivity | reflexivity | reflexivity
                               | vm_compute; reflexivity |].
    eauto.
Defined.

(** The hub that reports the name Hub1 and the identifier ABC123 at
    192.168.1.50 is stored as [Hub1 (192.168.1.50)] under ABC123. *)
Lemma created_entry_title_and_unique_id_witness :
  let data := Sample.submission "http://192.168.1.50" "secret" in
  exists st',
    run_step (async_step_user (Some data)) (initial_state []) =
      (Finished (ResultCreateEntry "Hub1 (192.168.1.50)" data), st')
    /\ hass_entries st' =
         [ {| entry_title := "Hub1 (192.168.1.50)";
              entry_data := data;
              entry_options := ∅;
              entry_unique_id := VStr "ABC123" |} ].
Proof.
  intros data.
  apply (created_entry_title_and_unique_id data (initial_state [])
           (with_job (Sample.job "192.168.1.50" "secret" false 80) (initial_state []))
           {| info_title := "Hub1 (192.168.1.50)"; info_uuid := VStr "ABC123" |}
           (VStr "http://192.168.1.50") (Sample.parsed "http" "192.168.1.50")
           "192.168.1.50" "Hub1" "ABC123"
           (Sample.job "192.168.1.50" "secret" false 80) Sample.hub1);
    try (vm_compute; reflexivity).
  intros entry [].
Defined.

(** An [ftp] host is refused without a job for the executor. *)
Lemma unrecognized_scheme_is_invalid_host_witness :
  let data := Sample.submission "ftp://192.168.1.50" "secret" in
  exists st',
    validate_input data (initial_state []) = (inl InvalidHost, st')
    /\ executor_jobs st' = []
    /\ async_step_user (Some data) (initial_state []) =
         (inr (ResultForm "user" (_data_schema ∅)
                          (Some {[ "base" := "invalid_host" ]})), st').
Proof.
  intros data.
  apply (unrecognized_scheme_is_invalid_host data (initial_state [])
           (VStr "admin") (VStr "secret") (VStr "ftp://192.168.1.50")
           (Sample.parsed "ftp" "192.168.1.50"));
    try (vm_compute; reflexivity); vm_compute; intros [=].
Defined.

(** An [https] host without a port is reached on port 443, encrypted. *)
Lemma default_port_by_scheme_witness :
  exists args,
    executor_jobs (snd (validate_input (Sample.submission "https://192.168.1.50" "secret")
                                       (initial_state []))) = [args]
    /\ (scheme (Sample.parsed "https" "192.168.1.50") = "http" ->
        conn_port args = 80 /\ use_https args = false)
    /\ (scheme (Sample.parsed "https" "192.168.1.50") = "https" ->
        conn_port args = 443 /\ use_https args = true).
Proof.
  apply (default_port_by_scheme (Sample.submission "https://192.168.1.50" "secret")
           (initial_state []) (VStr "admin") (VStr "secret")
           (VStr "https://192.168.1.50") (Sample.parsed "https" "192.168.1.50"));
    try (vm_compute; reflexivity).
  right. reflexivity.
Defined.

(** A wrong password comes back as [invalid_auth]. *)
Lemma credential_failure_is_invalid_auth_witness :
  let data := Sample.submission "http://192.168.1.50" "wrong" in
  exists st',
    async_step_user (Some data) (initial_state []) =
      (inr (ResultForm "user" (_data_schema ∅)
                       (Some {[ "base" := "invalid_auth" ]})), st')
    /\ hass_entries st' = [].
Proof.
  intros data.
  apply (credential_failure_is_invalid_auth data (initial_state [])
           (Sample.job "192.168.1.50" "wrong" false 80)
           (VStr "Invalid credentials") []);
    vm_compute; reflexivity.
Defined.

(** The hub that answers with an empty configuration comes back as
    [cannot_connect]. *)
Lemma unusable_name_is_cannot_connect_witness :
  let data := Sample.submission "http://192.168.1.51" "secret" in
  fst (validate_input data (initial_state [])) = inl CannotConnect
  /\ exists st',
       run_step (async_step_user (Some data)) (initial_state []) =
         (Finished (ResultForm "user" (_data_schema ∅)
                               (Some {[ "base" := "cannot_connect" ]})), st')
       /\ hass_entries st' = [].
Proof.
  intros data.
  apply (unusable_name_is_cannot_connect data (initial_state [])
           (Sample.job "192.168.1.51" "secret" false 80) ∅);
    try (vm_compute; reflexivity).
  left. reflexivity.
Defined.

(** After a wrong password the form comes back with one error and the
    empty host. *)
Lemma failed_validation_rerenders_form_witness :
  let data := Sample.submission "http://192.168.1.50" "wrong" in
  exists kind st' sch,
    async_step_user (Some data) (initial_state []) =
      (inr (ResultForm "user" sch (Some {[ "base" := kind ]})), st')
    /\ In kind ["invalid_host"; "cannot_connect"; "invalid_auth"; "unknown"]
    /\ sch = _data_schema ∅
    /\ schema_default sch CONF_HOST = Some (VStr "")
    /\ hass_entries st' = [].
Proof.
  intros data.
  apply (failed_validation_rerenders_form data (initial_state [])
           (with_job (Sample.job "192.168.1.50" "wrong" false 80) (initial_state []))
           (InvalidAuth (VStr "Invalid credentials"))).
  vm_compute. reflexivity.
Defined.

(** The advertisement of uuid:ABC123 at http://192.168.1.50:80/desc gives
    the identifier ABC123 and the host http://192.168.1.50:80. *)
Lemma discovery_strips_affixes_witness :
  let run := async_step_ssdp Sample.advertisement (initial_state []) in
  ctx_unique_id (snd run) = VStr "ABC123"
  /\ exists sch st',
       run = (inr (ResultForm "user" sch (Some ∅)), st')
       /\ self_discovered_conf st' !! CONF_HOST = Some (VStr "http://192.168.1.50:80")
       /\ schema_default sch CONF_HOST = Some (VStr "http://192.168.1.50:80").
Proof.
  intros run.
  destruct (discovery_strips_affixes Sample.advertisement (VStr "ISY") "ABC123"
              "http://192.168.1.50:80" (initial_state []))
    as [Hid Hhost]; [reflexivity | reflexivity | reflexivity |].
  split; [exact Hid|]. apply Hhost. intros entry [].
Defined.

(** An advertisement without the two affixes is taken as it is. *)
Lemma discovery_keeps_values_without_affix_witness :
  let discovery_info : pydict :=
    <[ "friendlyName" := VStr "ISY" ]>
      (<[ "ssdp_location" := VStr "http://192.168.1.50:80" ]>
         {[ "UDN" := VStr "ABC123" ]}) in
  let run := async_step_ssdp discovery_info (initial_state []) in
  ctx_unique_id (snd run) = VStr "ABC123"
  /\ self_discovered_conf (snd run) !! CONF_HOST = Some (VStr "http://192.168.1.50:80").
Proof.
  intros discovery_info run.
  destruct (discovery_keeps_values_without_affix discovery_info (VStr "ISY")
              "http://192.168.1.50:80" "ABC123" (initial_state []))
    as (Hid & Hhost & _); [reflexivity | reflexivity | reflexivity |].
  split.
  - apply Hid. intros [rest [=]].
  - apply Hhost.
    + intros [base Hbase]. apply (f_equal (fun s => PyStr.endswith s ISY_URL_POSTFIX)) in Hbase.
      rewrite PyStrFacts.endswith_app in Hbase. vm_compute in Hbase. discriminate.
    + vm_compute. intros [=].
Defined.

End Examples.


(** * Further properties of the flow *)

(** A run that left the executor as it was cannot have handed it a job. *)
Ltac no_job :=
  let H := fresh in
  intros H; simpl in H; apply (f_equal length) in H;
  rewrite length_app in H; simpl in H; lia.

Section Jobs.

Context {K : Constants} {L : Library}.

(** The job of a validation, read back from the executor: where each of
    its seven arguments comes from. *)
Lemma validate_input_job_args (data : pydict) (st : state) (args : conn_args) :
  executor_jobs (snd (validate_input data st)) = (executor_jobs st ++ [args])%list ->
  exists hv host po,
    data !! CONF_HOST = Some hv
    /\ urlparse hv = inr host
    /\ port host = inr po
    /\ (scheme host = "http" /\ use_https args = false
        /\ conn_port args = port_or po 80
        \/ scheme host = "https" /\ use_https args = true
           /\ conn_port args = port_or po 443)
    /\ address args = hostname host
    /\ webroot args = path host
    /\ data !! CONF_USERNAME = Some (username args)
    /\ data !! CONF_PASSWORD = Some (password args)
    /\ tls_ver args = dict_get data CONF_TLS_VER VNone.
Proof.
  unfold validate_input, async_add_executor_job. flow_unfold.
  destruct (data !! CONF_USERNAME) as [user|]; simpl; [|no_job].
  destruct (data !! CONF_PASSWORD) as [pw|]; simpl; [|no_job].
  destruct (data !! CONF_HOST) as [hv|]; simpl; [|no_job].
  destruct (urlparse hv) as [e|host] eqn:Hparse; simpl; [no_job|].
  destruct (String.eqb (scheme host) "http") eqn:Hhttp; simpl;
    [|destruct (String.eqb (scheme host) "https") eqn:Hhttps; simpl; [|no_job]].
  all: destruct (port host) as [e|po] eqn:Hport; simpl; [no_job|].
  all: repeat (destruct_inner; simpl).
  all: intros Hjobs; apply app_inv_head in Hjobs; injection Hjobs as <-.
  all: exists hv, host, po; simpl.
  all: try apply String.eqb_eq in Hhttp; try apply String.eqb_eq in Hhttps.
  all: repeat split; auto.
Qed.

(** The [user] step after a successful validation, as the caller of the
    framework sees it: abort when the identifier is taken, else a new
    entry under that identifier. *)
Lemma user_step_outcome (data : pydict) (st st1 : state) (info : device_info) :
  validate_input data st = (inr info, st1) ->
  run_step (async_step_user (Some data)) st =
    if match info_uuid info with VNone => false | _ => true end
       && existsb (fun entry => py_eq (entry_unique_id entry) (info_uuid info))
                  (hass_entries st)
    then (Finished ResultAbort, with_unique_id (info_uuid info) st1)
    else (Finished (ResultCreateEntry (info_title info) data),
          with_entry {| entry_title := info_title info;
                        entry_data := data;
                        entry_options := ∅;
                        entry_unique_id := info_uuid info |}
                     (with_unique_id (info_uuid info) st1)).
Proof.
  intros Hv.
  destruct (validate_input_frame _ _ _ _ Hv) as (Hent & _ & _).
  unfold run_step. rewrite (async_step_user_success _ _ _ _ Hv).
  unfold async_set_unique_id, _abort_if_unique_id_configured, async_create_entry.
  flow_unfold. simpl. rewrite Hent.
  destruct (info_uuid info); simpl; try done;
    by destruct (existsb _ _).
Qed.

End Jobs.

Arguments port_or : simpl never.

Section Edges.

Context {K : Constants} {L : Library}.

(** X1. A submission that lacks the username, the password or the host
    fails validation with a [KeyError] before anything else happens; the
    [user] step logs the exception and answers with the form carrying the
    error kind [unknown], and no job reaches the executor. *)
Theorem missing_key_is_unknown (data : pydict) (st : state) :
  data !! CONF_USERNAME = None \/ data !! CONF_PASSWORD = None
  \/ data !! CONF_HOST = None ->
  exists key,
    validate_input data st = (inl (KeyError key), st)
    /\ data !! key = None
    /\ async_step_user (Some data) st =
         (inr (ResultForm "user" (_data_schema (self_discovered_conf st))
                          (Some {[ "base" := "unknown" ]})),
          with_log (LogException "Unexpected exception") st).
Proof.
  intros Hmissing.
  assert (exists key, validate_input data st = (inl (KeyError key), st)
                      /\ data !! key = None) as (key & Hv & Hkey).
  { unfold validate_input. flow_unfold.
    destruct (data !! CONF_USERNAME) eqn:Hu; simpl; [|eauto].
    destruct (data !! CONF_PASSWORD) eqn:Hp; simpl; [|eauto].
    destruct (data !! CONF_HOST) eqn:Hh; simpl; [|eauto].
    by destruct Hmissing as [? | [? | ?]]. }
  exists key. repeat split; try done.
  by apply (async_step_user_handled _ _ _ _ _ _ Hv).
Qed.

(** X2. A port written in the host is the port of the connection, for
    both schemes, unless it is 0: port 0 counts as no port and gives the
    default of the scheme. *)
Theorem explicit_port_is_used
    (data : pydict) (st : state) (user pw hv : pyval) (host : parse_result)
    (p : Z) :
  data !! CONF_USERNAME = Some user ->
  data !! CONF_PASSWORD = Some pw ->
  data !! CONF_HOST = Some hv ->
  urlparse hv = inr host ->
  port host = inr (Some p) ->
  scheme host = "http" \/ scheme host = "https" ->
  exists args,
    executor_jobs (snd (validate_input data st)) = (executor_jobs st ++ [args])%list
    /\ (p <> 0 -> conn_port args = p)
    /\ (p = 0 -> conn_port args = if String.eqb (scheme host) "http" then 80 else 443).
Proof.
  intros Hu Hp Hh Hparse Hport Hscheme.
  unfold validate_input, async_add_executor_job. flow_unfold.
  rewrite Hu, Hp, Hh. simpl. rewrite Hparse. simpl.
  destruct Hscheme as [Hs | Hs]; rewrite Hs, Hport; simpl;
    eexists; (split; [by repeat (destruct_inner; simpl)|]);
    simpl; unfold port_or; split; intros Hz;
    try (apply Z.eqb_neq in Hz; by rewrite Hz); by subst.
Qed.

(** X3. The job of a validation carries the submission as it is: the
    submitted username and password, the hostname and the path of the
    parsed host, and the submitted TLS version, which is [None] when none
    was submitted (the default of the form is not filled in); it is
    encrypted exactly for the scheme ["https"]. *)
Theorem job_carries_submission (data : pydict) (st : state) (args : conn_args) :
  executor_jobs (snd (validate_input data st)) = (executor_jobs st ++ [args])%list ->
  exists hv host,
    data !! CONF_HOST = Some hv
    /\ urlparse hv = inr host
    /\ address args = hostname host
    /\ webroot args = path host
    /\ data !! CONF_USERNAME = Some (username args)
    /\ data !! CONF_PASSWORD = Some (password args)
    /\ tls_ver args = match data !! CONF_TLS_VER with Some v => v | None => VNone end
    /\ (use_https args = true <-> scheme host = "https").
Proof.
  intros Hjobs.
  destruct (validate_input_job_args _ _ _ Hjobs)
    as (hv & host & po & Hh & Hparse & _ & Hscheme & Ha & Hw & Hu & Hp & Ht).
  exists hv, host. repeat split; try done.
  - destruct Hscheme as [(_ & -> & _) | (? & _)]; done.
  - destruct Hscheme as [(Hs & _) | (_ & -> & _)]; [|done].
    rewrite Hs. intros [=].
Qed.

(** X4. When reading the port of the parsed host raises a [ValueError]
    (the port is not a number in range), the error is not a host error:
    the [user] step answers with the error kind [unknown], and no job
    reaches the executor. *)
Theorem invalid_port_is_unknown
    (data : pydict) (st : state) (user pw hv : pyval) (host : parse_result)
    (err_args : list pyval) :
  data !! CONF_USERNAME = Some user ->
  data !! CONF_PASSWORD = Some pw ->
  data !! CONF_HOST = Some hv ->
  urlparse hv = inr host ->
  scheme host = "http" \/ scheme host = "https" ->
  port host = inl (ValueError err_args) ->
  validate_input data st = (inl (ValueError err_args), st)
  /\ async_step_user (Some data) st =
       (inr (ResultForm "user" (_data_schema (self_discovered_conf st))
                        (Some {[ "base" := "unknown" ]})),
        with_log (LogException "Unexpected exception") st).
Proof.
  intros Hu Hp Hh Hparse Hscheme Hport.
  assert (validate_input data st = (inl (ValueError err_args), st)) as Hv.
  { unfold validate_input. flow_unfold.
    rewrite Hu, Hp, Hh. simpl. rewrite Hparse. simpl.
    by destruct Hscheme as [Hs | Hs]; rewrite Hs, Hport. }
  split; [done|]. by apply (async_step_user_handled _ _ _ _ _ _ Hv).
Qed.

(** X5. Only the constructor of the connection is watched for
    [ValueError]: when the connection is made and fetching or parsing the
    configuration raises a [ValueError], the [user] step answers with the
    error kind [unknown], not [invalid_auth]. *)
Theorem late_value_error_is_unknown
    (data : pydict) (st : state) (args : conn_args) (isy_conn : connection)
    (err_args : list pyval) :
  executor_jobs (snd (validate_input data st)) = (executor_jobs st ++ [args])%list ->
  Connection args = inr isy_conn ->
  get_config isy_conn = inl (ValueError err_args)
  \/ (exists xml, get_config isy_conn = inr xml
                  /\ Configuration xml = inl (ValueError err_args)) ->
  exists st',
    async_step_user (Some data) st =
      (inr (ResultForm "user" (_data_schema (self_discovered_conf st))
                       (Some {[ "base" := "unknown" ]})), st')
    /\ hass_entries st' = hass_entries st.
Proof.
  intros Hjobs Hconn Hlate.
  destruct (validate_input data st) as [r st1] eqn:Hv. simpl in Hjobs.
  destruct (validate_input_job _ _ _ _ _ Hv Hjobs)
    as (hv & host & _ & _ & _ & -> & Hr).
  assert (apply_args _fetch_isy_configuration args = inl (ValueError err_args))
    as Hfetch.
  { unfold apply_args, _fetch_isy_configuration. destruct args. simpl in *.
    rewrite Hconn. by destruct Hlate as [-> | (xml & -> & ->)]. }
  rewrite Hfetch in Hr. subst r.
  destruct (async_step_user_handled data st _ _ _ "unknown" Hv eq_refl)
    as (Hstep & Hent & _).
  eauto.
Qed.

(** X6. A [ValueError] of the constructor of the connection that carries
    no argument cannot be turned into [InvalidAuth]: taking its first
    argument raises [IndexError], and the [user] step answers with the
    error kind [unknown]. *)
Theorem value_error_without_message_is_unknown
    (data : pydict) (st : state) (args : conn_args) :
  executor_jobs (snd (validate_input data st)) = (executor_jobs st ++ [args])%list ->
  Connection args = inl (ValueError []) ->
  fst (validate_input data st) = inl IndexError
  /\ exists st',
       async_step_user (Some data) st =
         (inr (ResultForm "user" (_data_schema (self_discovered_conf st))
                          (Some {[ "base" := "unknown" ]})), st')
       /\ hass_entries st' = hass_entries st.
Proof.
  intros Hjobs Hconn.
  destruct (validate_input data st) as [r st1] eqn:Hv. simpl in Hjobs.
  destruct (validate_input_job _ _ _ _ _ Hv Hjobs)
    as (hv & host & _ & _ & _ & -> & Hr).
  rewrite (fetch_value_error _ _ Hconn) in Hr. subst r. split; [done|].
  destruct (async_step_user_handled data st _ _ _ "unknown" Hv eq_refl)
    as (Hstep & Hent & _).
  eauto.
Qed.

End Edges.

Section Steps.

Context {K : Constants} {L : Library}.

(** A validation hands at most one job to the executor. *)
Lemma validate_input_jobs (data : pydict) (st : state) :
  executor_jobs (snd (validate_input data st)) = executor_jobs st
  \/ exists args,
       executor_jobs (snd (validate_input data st)) = (executor_jobs st ++ [args])%list.
Proof.
  destruct (validate_input_cases data st)
    as [(e & st' & -> & Hsame) | (hv & host & args & _ & _ & _ & ->)]; simpl; eauto.
Qed.

(** The [ssdp] step never stores an entry. *)
Lemma ssdp_step_entries (discovery_info : pydict) (st : state) :
  hass_entries (snd (run_step (async_step_ssdp discovery_info) st)) = hass_entries st.
Proof.
  unfold run_step, async_step_ssdp, async_set_unique_id,
    _abort_if_unique_id_configured, async_step_user, async_show_form.
  flow_unfold.
  repeat (destruct_inner; simpl); try done;
    repeat match goal with H : (_, _) = (_, _) |- _ => injection H as <- <- end;
    try done.
Qed.


(** X8. One run of the [user] step hands at most one job to the
    executor. *)
Theorem user_step_at_most_one_job (user_input : option pydict) (st : state) :
  let st' := snd (run_step (async_step_user user_input) st) in
  executor_jobs st' = executor_jobs st
  \/ exists args, executor_jobs st' = (executor_jobs st ++ [args])%list.
Proof.
  intros st'. subst st'. destruct user_input as [data|].
  - assert (executor_jobs (snd (run_step (async_step_user (Some data)) st))
              = executor_jobs (snd (validate_input data st))) as ->;
      [|apply validate_input_jobs].
    destruct (validate_input data st) as [[e|info] st1] eqn:Hv.
    + destruct (async_step_user_failure _ _ _ _ Hv)
        as (kind & st' & _ & Hstep & _ & _ & Hjobs).
      unfold run_step. by rewrite Hstep.
    + rewrite (user_step_outcome _ _ _ _ Hv). by destruct (_ && _).
  - left. unfold run_step, async_step_user, async_show_form. flow_unfold. done.
Qed.

(** X9. If no two stored entries share a string identifier, none do after
    a [user], an [import] or an [ssdp] step. *)
Theorem unique_ids_stay_distinct (st : state) :
  distinct_ids (hass_entries st) ->
  (forall user_input,
      distinct_ids (hass_entries (snd (run_step (async_step_user user_input) st))))
  /\ (forall data,
        distinct_ids (hass_entries (snd (run_step (async_step_import data) st))))
  /\ (forall discovery_info,
        distinct_ids
          (hass_entries (snd (run_step (async_step_ssdp discovery_info) st)))).
Proof.
  intros Hdistinct.
  assert (forall user_input,
    distinct_ids (hass_entries (snd (run_step (async_step_user user_input) st))))
    as Huser.
  { intros [data|].
    - destruct (validate_input data st) as [[e|info] st1] eqn:Hv.
      + destruct (async_step_user_failure _ _ _ _ Hv)
          as (kind & st' & _ & Hstep & _ & Hent & _).
        unfold run_step. rewrite Hstep. simpl. by rewrite Hent.
      + destruct (validate_input_frame _ _ _ _ Hv) as (Hent & _ & _).
        rewrite (user_step_outcome _ _ _ _ Hv).
        destruct (info_uuid info) as [| b | z | x | u] eqn:Huuid; simpl;
          try (destruct (existsb _ _) eqn:Hex; simpl);
          rewrite ?Hent; unfold distinct_ids in *; try done;
          rewrite omap_app; unfold entry_string_id at 2; simpl;
          rewrite ?app_nil_r; try done.
        apply NoDup_app. split; [done|]. split; [|apply NoDup_singleton].
        intros u' Hin ->%list_elem_of_singleton.
        apply list_elem_of_omap in Hin as (entry & Hin & Hid).
        apply not_true_iff_false in Hex. apply Hex, existsb_unique_id.
        exists entry. split; [by apply list_elem_of_In|].
        unfold entry_string_id in Hid.
        by destruct (entry_unique_id entry); simplify_eq.
    - unfold run_step, async_step_user, async_show_form. flow_unfold. done. }
  repeat split; [done | intros data; apply Huser |].
  intros discovery_info. by rewrite ssdp_step_entries.
Qed.

End Steps.

Section Discovery.

Context {K : Constants} {L : Library}.

(** X10. An advertisement that lacks one of its three fields, or whose
    location or identifier is not a string, makes the [ssdp] step raise
    (a [KeyError] or an [AttributeError], not the abort signal); the flow
    and the stored entries are left as they were. *)
Theorem malformed_advertisement_fails (discovery_info : pydict) (st : state) :
  (~ exists friendly_name url mac,
       discovery_info !! ATTR_UPNP_FRIENDLY_NAME = Some friendly_name
       /\ discovery_info !! ATTR_SSDP_LOCATION = Some (VStr url)
       /\ discovery_info !! ATTR_UPNP_UDN = Some (VStr mac)) ->
  exists e,
    async_step_ssdp discovery_info st = (inl e, st)
    /\ ((exists key, e = KeyError key /\ discovery_info !! key = None)
        \/ e = AttributeError)
    /\ run_step (async_step_ssdp discovery_info) st = (Failed e, st).
Proof.
  intros Hbad. unfold run_step, async_step_ssdp. flow_unfold.
  destruct (discovery_info !! ATTR_UPNP_FRIENDLY_NAME) as [fn|] eqn:Hn; simpl;
    [|eexists; repeat split; eauto].
  destruct (discovery_info !! ATTR_SSDP_LOCATION) as [url|] eqn:Hl; simpl;
    [|eexists; repeat split; eauto].
  destruct (discovery_info !! ATTR_UPNP_UDN) as [mac|] eqn:Hm; simpl;
    [|eexists; repeat split; eauto].
  destruct mac as [| | | |mac]; simpl; try by (eexists; repeat split; eauto).
  destruct url as [| | | |url]; simpl; try by (eexists; repeat split; eauto).
  destruct Hbad. by exists fn, url, mac.
Qed.

(** X11. The [ssdp] step contacts nothing and stores nothing: for every
    advertisement, no job reaches the executor and the entries stay as
    they were. *)
Theorem discovery_contacts_nothing (discovery_info : pydict) (st : state) :
  executor_jobs (snd (async_step_ssdp discovery_info st)) = executor_jobs st
  /\ hass_entries (snd (run_step (async_step_ssdp discovery_info) st))
     = hass_entries st.
Proof.
  split; [|apply ssdp_step_entries].
  unfold async_step_ssdp, async_set_unique_id, _abort_if_unique_id_configured,
    async_step_user, async_show_form.
  flow_unfold.
  repeat (destruct_inner; simpl); done.
Qed.

(** X12. When the device of an advertisement is configured already, the
    [ssdp] step aborts before it keeps anything from the advertisement:
    the kept host and name and the title placeholders are as before. *)
Theorem aborted_discovery_keeps_nothing
    (discovery_info : pydict) (st st' : state) :
  async_step_ssdp discovery_info st = (inl AbortFlow, st') ->
  self_discovered_conf st' = self_discovered_conf st
  /\ ctx_title_placeholders st' = ctx_title_placeholders st
  /\ exists entry,
       In entry (hass_entries st)
       /\ py_eq (entry_unique_id entry) (ctx_unique_id st') = true.
Proof.
  unfold async_step_ssdp, async_set_unique_id, _abort_if_unique_id_configured,
    async_step_user, async_show_form.
  flow_unfold.
  repeat (destruct_inner; simpl); intros [= <-]; simpl;
    (repeat split; [done..|]);
    match goal with H : existsb _ _ = true |- _ => apply existsb_exists in H end;
    done.
Qed.

(** X13. After the discovery of a device that is not configured, the
    title placeholders are the kept name and host: the friendly name of
    the advertisement under [CONF_NAME] and the stripped location under
    [CONF_HOST]. *)
Theorem discovery_sets_placeholders
    (discovery_info : pydict) (st st' : state) (r : flow_result) :
  CONF_NAME <> CONF_HOST ->
  async_step_ssdp discovery_info st = (inr r, st') ->
  exists friendly_name host,
    discovery_info !! ATTR_UPNP_FRIENDLY_NAME = Some friendly_name
    /\ ctx_title_placeholders st' = Some (self_discovered_conf st')
    /\ self_discovered_conf st' !! CONF_NAME = Some friendly_name
    /\ self_discovered_conf st' !! CONF_HOST = Some (VStr host)
    /\ dom (self_discovered_conf st') = {[ CONF_NAME; CONF_HOST ]}
    /\ r = ResultForm "user" (_data_schema (self_discovered_conf st')) (Some ∅).
Proof.
  intros Hkeys.
  unfold async_step_ssdp, async_set_unique_id, _abort_if_unique_id_configured,
    async_step_user, async_show_form.
  flow_unfold.
  repeat (destruct_inner; simpl); try done; intros [= Hr Hst]; subst r st'; simpl;
    eexists _, _; (split; [done|]); (split; [done|]);
    (split; [by rewrite lookup_insert_ne, lookup_singleton_eq|]);
    (split; [by rewrite lookup_insert_eq|]);
    (split; [|done]);
    rewrite dom_insert_L, dom_singleton_L; apply (comm_L (∪)).
Qed.

(** X14. The host kept from discovery outlives a failed submission: when
    a submission fails after the discovery of [base] followed by the known
    suffix, the form that comes back shows [base] as the host, whatever
    host was submitted. *)
Theorem discovered_host_survives_failure
    (discovery_info : pydict) (friendly_name : pyval) (base mac : string)
    (st st1 st2 : state) (r : flow_result) (data : pydict) (e : exn) :
  discovery_info !! ATTR_UPNP_FRIENDLY_NAME = Some friendly_name ->
  discovery_info !! ATTR_SSDP_LOCATION = Some (VStr (base ++ ISY_URL_POSTFIX)) ->
  discovery_info !! ATTR_UPNP_UDN = Some (VStr mac) ->
  async_step_ssdp discovery_info st = (inr r, st1) ->
  validate_input data st1 = (inl e, st2) ->
  exists kind sch st',
    async_step_user (Some data) st1 =
      (inr (ResultForm "user" sch (Some {[ "base" := kind ]})), st')
    /\ schema_default sch CONF_HOST = Some (VStr base).
Proof.
  intros Hn Hl Hm Hssdp Hv.
  rewrite (async_step_ssdp_run _ _ _ _ _ Hn Hl Hm) in Hssdp. cbv zeta in Hssdp.
  rewrite PyStrFacts.endswith_app, PyStrFacts.slice_to_neg_app in Hssdp by done.
  destruct (existsb _ _); [done|]. injection Hssdp as _ <-.
  destruct (async_step_user_failure _ _ _ _ Hv) as (kind & st' & _ & Hstep & _).
  eexists _, _, _. split; [exact Hstep|].
  unfold schema_default. simpl. rewrite String.eqb_refl. simpl.
  unfold dict_get. by rewrite lookup_insert_eq.
Qed.

End Discovery.

Section Reports.

Context {K : Constants} {L : Library}.

Lemma dict_falsy_lookup (d : pydict) (key : string) (v : pyval) :
  d !! key = Some v -> dict_falsy d = false.
Proof.
  intros Hv. apply bool_decide_eq_false_2. intros ->.
  by rewrite lookup_empty in Hv.
Qed.

(** X15. A failed validation is logged as an exception exactly when its
    error is none of [CannotConnect], [InvalidHost] and [InvalidAuth]: the
    three expected errors add nothing to the log. *)
Theorem unexpected_errors_are_logged
    (data : pydict) (st st1 : state) (e : exn) :
  validate_input data st = (inl e, st1) ->
  logged (snd (async_step_user (Some data) st)) =
    (logged st1
     ++ match e with
        | CannotConnect | InvalidHost | InvalidAuth _ => []
        | _ => [LogException "Unexpected exception"]
        end)%list.
Proof.
  intros Hv.
  destruct e;
    edestruct (async_step_user_handled data st st1 _ _ _ Hv eq_refl) as (-> & _);
    simpl; by rewrite ?app_nil_r.
Qed.

(** X16. A device that reports a usable name and no ["uuid"] is not
    stored: building the result raises a [KeyError], and the [user] step
    answers with the error kind [unknown]. *)
Theorem missing_identifier_is_unknown
    (data : pydict) (st : state) (args : conn_args) (isy_conf : pydict)
    (name : pyval) :
  executor_jobs (snd (validate_input data st)) = (executor_jobs st ++ [args])%list ->
  apply_args _fetch_isy_configuration args = inr isy_conf ->
  isy_conf !! "name" = Some name ->
  truthy name = true ->
  isy_conf !! "uuid" = None ->
  fst (validate_input data st) = inl (KeyError "uuid")
  /\ exists st',
       run_step (async_step_user (Some data)) st =
         (Finished (ResultForm "user" (_data_schema (self_discovered_conf st))
                               (Some {[ "base" := "unknown" ]})), st')
       /\ hass_entries st' = hass_entries st.
Proof.
  intros Hjobs Hfetch Hname Htruthy Huuid.
  destruct (validate_input data st) as [r st1] eqn:Hv. simpl in Hjobs.
  destruct (validate_input_job _ _ _ _ _ Hv Hjobs)
    as (hv & host & _ & _ & _ & -> & Hr).
  rewrite Hfetch, Hname, Huuid, Htruthy, (dict_falsy_lookup _ _ _ Hname) in Hr.
  simpl in Hr. subst r. split; [done|].
  destruct (async_step_user_handled data st _ _ _ "unknown" Hv eq_refl)
    as (Hstep & Hent & _).
  unfold run_step. rewrite Hstep. eauto.
Qed.

(** X17. The title is formatted from whatever the parsed host gives as
    its hostname: when the host has none, the title of a hub named [n]
    is [n (None)]. *)
Theorem title_without_hostname
    (data : pydict) (st st1 : state) (info : device_info) (hv : pyval)
    (host : parse_result) (args : conn_args) (isy_conf : pydict) (n : string) :
  validate_input data st = (inr info, st1) ->
  data !! CONF_HOST = Some hv ->
  urlparse hv = inr host ->
  hostname host = None ->
  executor_jobs st1 = (executor_jobs st ++ [args])%list ->
  apply_args _fetch_isy_configuration args = inr isy_conf ->
  isy_conf !! "name" = Some (VStr n) ->
  info_title info = n ++ " (None)" /\ address args = None.
Proof.
  intros Hv Hh Hparse Hhost Hjobs Hfetch Hname.
  destruct (validate_input_job _ _ _ _ _ Hv Hjobs)
    as (hv' & host' & Hh' & Hparse' & Haddr & -> & Hr).
  assert (hv' = hv) as -> by congruence.
  assert (host' = host) as -> by congruence.
  rewrite Hfetch, Hname, Hhost in Hr.
  destruct (dict_falsy isy_conf || negb (truthy (VStr n))); [done|].
  destruct (isy_conf !! "uuid"); [|done].
  injection Hr as ->. split; [done|]. by rewrite Haddr.
Qed.

(** X18. Opened without input, the options editor shows, for each of its
    four fields, the stored value when there is one and the static default
    otherwise, and leaves the entry as it is. *)
Theorem options_form_shows_stored_or_default (entry : config_entry) :
  NoDup [CONF_IGNORE_STRING; CONF_SENSOR_STRING; CONF_VAR_SENSOR_STRING;
         CONF_RESTORE_LIGHT_STATE] ->
  exists sch,
    async_step_init entry None = ResultForm "init" sch None
    /\ schema_default sch CONF_IGNORE_STRING =
         Some (dict_get (entry_options entry) CONF_IGNORE_STRING
                        DEFAULT_IGNORE_STRING)
    /\ schema_default sch CONF_SENSOR_STRING =
         Some (dict_get (entry_options entry) CONF_SENSOR_STRING
                        DEFAULT_SENSOR_STRING)
    /\ schema_default sch CONF_VAR_SENSOR_STRING =
         Some (dict_get (entry_options entry) CONF_VAR_SENSOR_STRING
                        DEFAULT_VAR_SENSOR_STRING)
    /\ schema_default sch CONF_RESTORE_LIGHT_STATE =
         Some (dict_get (entry_options entry) CONF_RESTORE_LIGHT_STATE
                        DEFAULT_RESTORE_LIGHT_STATE)
    /\ finish_options_flow entry (async_step_init entry None) = entry.
Proof.
  intros Hkeys.
  apply NoDup_cons in Hkeys as (Hi & Hkeys).
  apply NoDup_cons in Hkeys as (Hs & Hkeys).
  apply NoDup_cons in Hkeys as (Hv & _).
  assert (String.eqb CONF_IGNORE_STRING CONF_SENSOR_STRING = false) as His.
  { apply String.eqb_neq. intros Heq. apply Hi. rewrite !elem_of_cons. auto. }
  assert (String.eqb CONF_IGNORE_STRING CONF_VAR_SENSOR_STRING = false) as Hiv.
  { apply String.eqb_neq. intros Heq. apply Hi. rewrite !elem_of_cons. auto. }
  assert (String.eqb CONF_IGNORE_STRING CONF_RESTORE_LIGHT_STATE = false) as Hir.
  { apply String.eqb_neq. intros Heq. apply Hi. rewrite !elem_of_cons. auto. }
  assert (String.eqb CONF_SENSOR_STRING CONF_VAR_SENSOR_STRING = false) as Hsv.
  { apply String.eqb_neq. intros Heq. apply Hs. rewrite !elem_of_cons. auto. }
  assert (String.eqb CONF_SENSOR_STRING CONF_RESTORE_LIGHT_STATE = false) as Hsr.
  { apply String.eqb_neq. intros Heq. apply Hs. rewrite !elem_of_cons. auto. }
  assert (String.eqb CONF_VAR_SENSOR_STRING CONF_RESTORE_LIGHT_STATE = false) as Hvr.
  { apply String.eqb_neq. intros Heq. apply Hv. rewrite !elem_of_cons. auto. }
  eexists. split; [reflexivity|].
  unfold schema_default. simpl.
  by rewrite !String.eqb_refl, His, Hiv, Hir, Hsv, Hsr, Hvr.
Qed.


End Reports.

(** ** The edges on the sample instances *)

Section EdgeExamples.

#[local] Existing Instance Sample.constants.
#[local] Existing Instance Edge.library.

(** A submission of the host alone is reported as [unknown]. *)
Lemma missing_key_is_unknown_witness :
  exists key,
    validate_input {[ "host" := VStr "http://192.168.1.50" ]} (initial_state [])
      = (inl (KeyError key), initial_state [])
    /\ ({[ "host" := VStr "http://192.168.1.50" ]} : pydict) !! key = None
    /\ async_step_user (Some {[ "host" := VStr "http://192.168.1.50" ]})
                       (initial_state []) =
         (inr (ResultForm "user" (_data_schema ∅)
                          (Some {[ "base" := "unknown" ]})),
          with_log (LogException "Unexpected exception") (initial_state [])).
Proof.
  apply (missing_key_is_unknown {[ "host" := VStr "http://192.168.1.50" ]}
           (initial_state [])).
  left. reflexivity.
Defined.

(** Port 8080 written in the host is the port of the job. *)
Lemma explicit_port_is_used_witness :
  exists args,
    executor_jobs (snd (validate_input
                          (Sample.submission "http://192.168.1.50:8080" "secret")
                          (initial_state []))) = [args]
    /\ conn_port args = 8080.
Proof.
  destruct (explicit_port_is_used
              (Sample.submission "http://192.168.1.50:8080" "secret")
              (initial_state []) (VStr "admin") (VStr "secret")
              (VStr "http://192.168.1.50:8080")
              {| scheme := "http"; hostname := Some "192.168.1.50";
                 port := inr (Some 8080); path := "" |} 8080)
    as (args & Hjobs & Hport & _); try reflexivity.
  { left. reflexivity. }
  exists args. split; [exact Hjobs|]. apply Hport. lia.
Defined.

(** The job for the first hub carries what was typed. *)
Lemma job_carries_submission_witness :
  let data := Sample.submission "http://192.168.1.50" "secret" in
  let args := Sample.job "192.168.1.50" "secret" false 80 in
  exists hv host,
    data !! CONF_HOST = Some hv
    /\ urlparse hv = inr host
    /\ address args = hostname host
    /\ webroot args = path host
    /\ data !! CONF_USERNAME = Some (username args)
    /\ data !! CONF_PASSWORD = Some (password args)
    /\ tls_ver args = match data !! CONF_TLS_VER with Some v => v | None => VNone end
    /\ (use_https args = true <-> scheme host = "https").
Proof.
  intros data args.
  apply (job_carries_submission data (initial_state []) args).
  vm_compute. reflexivity.
Defined.

(** Port 99999 is reported as [unknown]. *)
Lemma invalid_port_is_unknown_witness :
  let data := Sample.submission "http://192.168.1.50:99999" "secret" in
  validate_input data (initial_state [])
    = (inl (ValueError [VStr "Port out of range 0-65535"]), initial_state [])
  /\ async_step_user (Some data) (initial_state []) =
       (inr (ResultForm "user" (_data_schema ∅)
                        (Some {[ "base" := "unknown" ]})),
        with_log (LogException "Unexpected exception") (initial_state [])).
Proof.
  intros data.
  apply (invalid_port_is_unknown data (initial_state []) (VStr "admin")
           (VStr "secret") (VStr "http://192.168.1.50:99999")
           {| scheme := "http"; hostname := Some "192.168.1.50";
              port := inl (ValueError [VStr "Port out of range 0-65535"]);
              path := "" |});
    try reflexivity.
  left. reflexivity.
Defined.

(** The hub whose configuration cannot be read is reported as [unknown]. *)
Lemma late_value_error_is_unknown_witness :
  exists st',
    async_step_user (Some (Sample.submission "http://192.168.1.52" "secret"))
                    (initial_state []) =
      (inr (ResultForm "user" (_data_schema ∅)
                       (Some {[ "base" := "unknown" ]})), st')
    /\ hass_entries st' = [].
Proof.
  apply (late_value_error_is_unknown
           (Sample.submission "http://192.168.1.52" "secret") (initial_state [])
           (Sample.job "192.168.1.52" "secret" false 80)
           (Some "192.168.1.52" : @connection Edge.library)
           [VStr "unreadable"]).
  - vm_compute. reflexivity.
  - reflexivity.
  - left. reflexivity.
Defined.

(** A refusal without a message is reported as [unknown]. *)
Lemma value_error_without_message_is_unknown_witness :
  let data := Sample.submission "http://192.168.1.50" "" in
  fst (validate_input data (initial_state [])) = inl IndexError
  /\ exists st',
       async_step_user (Some data) (initial_state []) =
         (inr (ResultForm "user" (_data_schema ∅)
                          (Some {[ "base" := "unknown" ]})), st')
       /\ hass_entries st' = [].
Proof.
  intros data.
  apply (value_error_without_message_is_unknown data (initial_state [])
           (Sample.job "192.168.1.50" "" false 80)).
  - vm_compute. reflexivity.
  - reflexivity.
Defined.

(** Next to the hub ABC123, the hub XYZ789 is stored and ABC123 is not
    stored twice. *)
Lemma unique_ids_stay_distinct_witness :
  let st := initial_state [Sample.configured "ABC123"] in
  distinct_ids
    (hass_entries
       (snd (run_step (async_step_user
                         (Some (Sample.submission "http:///isy" "secret"))) st)))
  /\ distinct_ids
       (hass_entries
          (snd (run_step (async_step_import
                            (Sample.submission "http://192.168.1.50" "secret")) st)))
  /\ distinct_ids
       (hass_entries (snd (run_step (async_step_ssdp Sample.advertisement) st))).
Proof.
  intros st.
  destruct (unique_ids_stay_distinct st) as (Huser & Himport & Hssdp).
  { unfold distinct_ids. simpl. apply NoDup_singleton. }
  repeat split; [apply Huser | apply Himport | apply Hssdp].
Defined.

(** An advertisement of the name alone raises and changes nothing. *)
Lemma malformed_advertisement_fails_witness :
  let discovery_info : pydict := {[ "friendlyName" := VStr "ISY" ]} in
  exists e,
    async_step_ssdp discovery_info (initial_state []) = (inl e, initial_state [])
    /\ ((exists key, e = KeyError key /\ discovery_info !! key = None)
        \/ e = AttributeError)
    /\ run_step (async_step_ssdp discovery_info) (initial_state [])
       = (Failed e, initial_state []).
Proof.
  intros discovery_info.
  apply (malformed_advertisement_fails discovery_info (initial_state [])).
  intros (friendly_name & url & mac & _ & Hl & _). vm_compute in Hl. discriminate.
Defined.

(** The advertisement of the configured hub ABC123 leaves no host behind. *)
Lemma aborted_discovery_keeps_nothing_witness :
  let st := initial_state [Sample.configured "ABC123"] in
  let st' := with_unique_id (VStr "ABC123") st in
  self_discovered_conf st' = ∅
  /\ ctx_title_placeholders st' = None
  /\ exists entry,
       In entry (hass_entries st)
       /\ py_eq (entry_unique_id entry) (ctx_unique_id st') = true.
Proof.
  intros st st'.
  apply (aborted_discovery_keeps_nothing Sample.advertisement st st').
  vm_compute. reflexivity.
Defined.

(** The advertisement of the hub ABC123, not configured yet, leaves its
    name and host as placeholders. *)
Lemma discovery_sets_placeholders_witness :
  let conf : pydict :=
    <[ "host" := VStr "http://192.168.1.50:80" ]> {[ "name" := VStr "ISY" ]} in
  let st' :=
    with_title_placeholders conf
      (with_discovered_conf conf
         (with_unique_id (VStr "ABC123") (initial_state []))) in
  exists friendly_name host,
    Sample.advertisement !! ATTR_UPNP_FRIENDLY_NAME = Some friendly_name
    /\ ctx_title_placeholders st' = Some (self_discovered_conf st')
    /\ self_discovered_conf st' !! CONF_NAME = Some friendly_name
    /\ self_discovered_conf st' !! CONF_HOST = Some (VStr host)
    /\ dom (self_discovered_conf st') = {[ CONF_NAME; CONF_HOST ]}
    /\ ResultForm "user" (_data_schema conf) (Some ∅)
       = ResultForm "user" (_data_schema (self_discovered_conf st')) (Some ∅).
Proof.
  intros conf st'.
  apply (discovery_sets_placeholders Sample.advertisement (initial_state []) st'
           (ResultForm "user" (_data_schema conf) (Some ∅))).
  - vm_compute. intros [=].
  - vm_compute. reflexivity.
Defined.

(** After the discovery of the hub at [http://192.168.1.50:80], a wrong
    password for another host brings back the discovered host. *)
Lemma discovered_host_survives_failure_witness :
  let conf : pydict :=
    <[ "host" := VStr "http://192.168.1.50:80" ]> {[ "name" := VStr "ISY" ]} in
  let st1 :=
    with_title_placeholders conf
      (with_discovered_conf conf
         (with_unique_id (VStr "ABC123") (initial_state []))) in
  exists kind sch st',
    async_step_user (Some (Sample.submission "http://192.168.1.51" "wrong")) st1 =
      (inr (ResultForm "user" sch (Some {[ "base" := kind ]})), st')
    /\ schema_default sch CONF_HOST = Some (VStr "http://192.168.1.50:80").
Proof.
  intros conf st1.
  apply (discovered_host_survives_failure Sample.advertisement (VStr "ISY")
           "http://192.168.1.50:80" "uuid:ABC123" (initial_state []) st1
           (with_job (Sample.job "192.168.1.51" "wrong" false 80) st1)
           (ResultForm "user" (_data_schema conf) (Some ∅))
           (Sample.submission "http://192.168.1.51" "wrong")
           (InvalidAuth (VStr "Invalid credentials")));
    vm_compute; reflexivity.
Defined.

(** A missing username is logged; a wrong password is not. *)
Lemma unexpected_errors_are_logged_witness :
  logged (snd (async_step_user (Some {[ "host" := VStr "http://192.168.1.50" ]})
                               (initial_state [])))
    = [LogException "Unexpected exception"]
  /\ logged (snd (async_step_user
                    (Some (Sample.submission "http://192.168.1.50" "wrong"))
                    (initial_state [])))
     = [].
Proof.
  split.
  - apply (unexpected_errors_are_logged {[ "host" := VStr "http://192.168.1.50" ]}
             (initial_state []) (initial_state []) (KeyError "username")).
    vm_compute. reflexivity.
  - apply (unexpected_errors_are_logged
             (Sample.submission "http://192.168.1.50" "wrong") (initial_state [])
             (with_job (Sample.job "192.168.1.50" "wrong" false 80) (initial_state []))
             (InvalidAuth (VStr "Invalid credentials"))).
    vm_compute. reflexivity.
Defined.

(** The hub that reports a name and no identifier is not stored. *)
Lemma missing_identifier_is_unknown_witness :
  let data := Sample.submission "http://192.168.1.53" "secret" in
  fst (validate_input data (initial_state [])) = inl (KeyError "uuid")
  /\ exists st',
       run_step (async_step_user (Some data)) (initial_state []) =
         (Finished (ResultForm "user" (_data_schema ∅)
                               (Some {[ "base" := "unknown" ]})), st')
       /\ hass_entries st' = [].
Proof.
  intros data.
  apply (missing_identifier_is_unknown data (initial_state [])
           (Sample.job "192.168.1.53" "secret" false 80)
           {[ "name" := VStr "Hub3" ]} (VStr "Hub3"));
    vm_compute; reflexivity.
Defined.

(** A host without a hostname gives the title [Hub0 (None)]. *)
Lemma title_without_hostname_witness :
  let args :=
    {| address := None; conn_port := 80; username := VStr "admin";
       password := VStr "secret"; use_https := false;
       tls_ver := VFloat float_1_1; webroot := "/isy" |} in
  info_title {| info_title := "Hub0 (None)"; info_uuid := VStr "XYZ789" |}
    = "Hub0" ++ " (None)"
  /\ address args = None.
Proof.
  intros args.
  apply (title_without_hostname (Sample.submission "http:///isy" "secret")
           (initial_state []) (with_job args (initial_state []))
           {| info_title := "Hub0 (None)"; info_uuid := VStr "XYZ789" |}
           (VStr "http:///isy")
           {| scheme := "http"; hostname := None; port := inr None;
              path := "/isy" |}
           args (<[ "uuid" := VStr "XYZ789" ]> {[ "name" := VStr "Hub0" ]}) "Hub0");
    vm_compute; reflexivity.
Defined.

(** An entry without stored options shows the four static defaults. *)
Lemma options_form_shows_stored_or_default_witness :
  exists sch,
    async_step_init (Sample.configured "ABC123") None = ResultForm "init" sch None
    /\ schema_default sch "ignore_string" = Some (VStr "{IGNORE ME}")
    /\ schema_default sch "sensor_string" = Some (VStr "sensor")
    /\ schema_default sch "variable_sensor_string" = Some (VStr "HA.")
    /\ schema_default sch "restore_light_state" = Some (VBool false)
    /\ finish_options_flow (Sample.configured "ABC123")
         (async_step_init (Sample.configured "ABC123") None)
       = Sample.configured "ABC123".
Proof.
  destruct (options_form_shows_stored_or_default (Sample.configured "ABC123"))
    as (sch & Hform & Hi & Hs & Hv & Hr & Hentry).
  { apply (bool_decide_unpack _). vm_compute. exact I. }
  exists sch.
  split; [exact Hform|]. split; [exact Hi|]. split; [exact Hs|].
  split; [exact Hv|]. split; [exact Hr | exact Hentry].
Defined.


End EdgeExamples.
